(** * The Hindmarsh-Rose neuron model ([neural_models/hindmarsh_rose.py])

    A shallow embedding of the class [HindmarshRose]: its constructor and
    parameter check, the time grid [tvec], the right-hand side
    [system_equations] and the driver [run].

    Python values are a tagged union, Python floats are IEEE binary64
    numbers (Rocq's primitive floats), exceptions are an error monad and
    the object's attributes are a record threaded through [run].  numpy's
    [arange] is modelled explicitly; scipy's [odeint] and the C library's
    [pow] are parameters of the development. *)

From Stdlib Require Import ZArith List String Lia.
From Stdlib Require Import PrimFloat SpecFloat FloatOps FloatAxioms FloatLemmas.
From stdpp Require Import gmap strings.

Set Warnings "-inexact-float,-register-all,-abstract-large-number".
Local Open Scope Z_scope.

(** ** Python values and exceptions *)

Inductive pyval : Type :=
| PyNone
| PyBool (b : bool)
| PyInt (n : Z)
| PyFloat (f : float)
| PyStr (s : string)
| PyList (l : list pyval).

Inductive exn : Type :=
| AssertionError (msg : string)
| TypeError
| IndexError
| ZeroDivisionError
| OverflowError
| ValueError
| MemoryError
| RuntimeError.

Inductive result (A : Type) : Type :=
| Ok (v : A)
| Raise (e : exn).
Arguments Ok {A} v.
Arguments Raise {A} e.

#[export] Instance result_ret : MRet result := fun _ v => Ok v.
#[export] Instance result_bind : MBind result := fun _ _ k r =>
  match r with
  | Ok v => k v
  | Raise e => Raise e
  end.

Definition raises {A} (r : result A) : Prop := exists e, r = Raise e.

(** ** The numeric tower: [bool] is a subclass of [int]; [float] is binary64 *)

Inductive num : Type :=
| NInt (n : Z)
| NFloat (f : float).

Definition as_num (v : pyval) : option num :=
  match v with
  | PyBool b => Some (NInt (Z.b2z b))
  | PyInt n => Some (NInt n)
  | PyFloat f => Some (NFloat f)
  | _ => None
  end.

(** [isinstance(v, (int, float))] *)
Definition isinstance_int_float (v : pyval) : bool :=
  match v with
  | PyBool _ | PyInt _ | PyFloat _ => true
  | _ => false
  end.

(** The double nearest to an integer (ties to even), infinite when the
    integer is out of the binary64 range. *)
Definition float_of_Z (n : Z) : float :=
  SF2Prim (binary_normalize prec emax n 0 false).

(** Conversion of an [int] operand in mixed arithmetic: [OverflowError]
    when the integer is too large for a double. *)
Definition to_double (n : Z) : result float :=
  let f := float_of_Z n in
  if is_infinity f then Raise OverflowError else Ok f.

(** [u op v] on two numbers, for [+], [-], [*]: exact on two integers,
    binary64 as soon as one operand is a float.  No operand type of the
    model other than the numbers defines [-]; [+] and [*] are also defined
    on sequences, below. *)
Definition arith (iop : Z -> Z -> Z) (fop : float -> float -> float)
    (u v : pyval) : result pyval :=
  match as_num u, as_num v with
  | Some (NInt m), Some (NInt n) => Ok (PyInt (iop m n))
  | Some (NInt m), Some (NFloat g) => f ← to_double m; Ok (PyFloat (fop f g))
  | Some (NFloat f), Some (NInt n) => g ← to_double n; Ok (PyFloat (fop f g))
  | Some (NFloat f), Some (NFloat g) => Ok (PyFloat (fop f g))
  | _, _ => Raise TypeError
  end.

Definition py_sub : pyval -> pyval -> result pyval := arith Z.sub PrimFloat.sub.

(** [u + v]: two strings or two lists are concatenated. *)
Definition py_add (u v : pyval) : result pyval :=
  match u, v with
  | PyStr s, PyStr t => Ok (PyStr (s +:+ t))
  | PyList l, PyList k => Ok (PyList (l ++ k))
  | _, _ => arith Z.add PrimFloat.add u v
  end.

(** The largest size of a Python object, [PY_SSIZE_T_MAX]. *)
Definition ssize_max : Z := 2 ^ 63 - 1.

(** An [int] or a [bool] used as an index or a count. *)
Definition as_index (v : pyval) : option Z :=
  match v with
  | PyBool b => Some (Z.b2z b)
  | PyInt n => Some n
  | _ => None
  end.

Fixpoint str_repeat (s : string) (n : nat) : string :=
  match n with
  | O => EmptyString
  | S k => s +:+ str_repeat s k
  end.

Fixpoint list_repeat (l : list pyval) (n : nat) : list pyval :=
  match n with
  | O => []
  | S k => l ++ list_repeat l k
  end.

(** [seq * n] and [n * seq] for a string or a list [seq]: the count must
    be an [int] of index size, a count below 1 gives the empty sequence,
    and a result longer than [ssize_max] is refused ([OverflowError] for a
    string, [MemoryError] for a list). *)
Definition sequence_repeat (seq n : pyval) : result pyval :=
  match as_index n with
  | None => Raise TypeError
  | Some count =>
      if (- 2 ^ 63 <=? count) && (count <=? ssize_max)
      then match seq with
           | PyStr s =>
               if count <? 1 then Ok (PyStr EmptyString)
               else if ssize_max / count <? Z.of_nat (String.length s)
                    then Raise OverflowError
                    else Ok (PyStr (str_repeat s (Z.to_nat count)))
           | PyList l =>
               if (Z.of_nat (length l) =? 0) || (count <=? 0) then Ok (PyList [])
               else if ssize_max / count <? Z.of_nat (length l)
                    then Raise MemoryError
                    else Ok (PyList (list_repeat l (Z.to_nat count)))
           | _ => Raise TypeError
           end
      else Raise OverflowError
  end.

(** [u * v]: a product of two numbers, or a sequence repeated. *)
Definition py_mul (u v : pyval) : result pyval :=
  match u, v with
  | PyStr _, _ | PyList _, _ => sequence_repeat u v
  | _, PyStr _ | _, PyList _ => sequence_repeat v u
  | _, _ => arith Z.mul PrimFloat.mul u v
  end.

(** The correctly rounded quotient of two integers, [n <> 0]. *)
Definition Z_truediv (m n : Z) : float :=
  match m, n with
  | Z0, _ => zero
  | _, Z0 => nan
  | _, _ =>
      SF2Prim (SFdiv prec emax
                 (S754_finite (m <? 0) (Z.to_pos (Z.abs m)) 0)
                 (S754_finite (n <? 0) (Z.to_pos (Z.abs n)) 0))
  end.

(** [u / v], Python's true division; the quotient of two numbers is
    always a float. *)
Definition py_truediv (u v : pyval) : result float :=
  match as_num u, as_num v with
  | Some (NInt m), Some (NInt n) =>
      if n =? 0 then Raise ZeroDivisionError
      else let q := Z_truediv m n in
           if is_infinity q then Raise OverflowError else Ok q
  | Some (NInt m), Some (NFloat g) =>
      f ← to_double m;
      if (g =? 0)%float then Raise ZeroDivisionError else Ok (f / g)%float
  | Some (NFloat f), Some (NInt n) =>
      g ← to_double n;
      if (g =? 0)%float then Raise ZeroDivisionError else Ok (f / g)%float
  | Some (NFloat f), Some (NFloat g) =>
      if (g =? 0)%float then Raise ZeroDivisionError else Ok (f / g)%float
  | _, _ => Raise TypeError
  end.

(** [X[i]] on a sequence, for the non-negative literal indices of the source. *)
Definition getitem (X : list pyval) (i : nat) : result pyval :=
  match X !! i with
  | Some v => Ok v
  | None => Raise IndexError
  end.

(** ** The object *)

(** The attributes of a [HindmarshRose] instance.  [x], [y], [z] do not
    exist before the first [run]. *)
Record HindmarshRose : Type := mkHR {
  self_I : pyval;
  self_a : pyval;
  self_b : pyval;
  self_c : pyval;
  self_d : pyval;
  self_r : pyval;
  self_s : pyval;
  self_x1 : pyval;
  self_dt : pyval;
  self_time : pyval;
  self_x : option (list float);
  self_y : option (list float);
  self_z : option (list float)
}.

(** [self.I = v] *)
Definition set_I (self : HindmarshRose) (v : pyval) : HindmarshRose :=
  mkHR v (self_a self) (self_b self) (self_c self) (self_d self)
       (self_r self) (self_s self) (self_x1 self) (self_dt self)
       (self_time self) (self_x self) (self_y self) (self_z self).

(** [self.x, self.y, self.z = xs, ys, zs] *)
Definition set_xyz (self : HindmarshRose) (xs ys zs : list float) : HindmarshRose :=
  mkHR (self_I self) (self_a self) (self_b self) (self_c self) (self_d self)
       (self_r self) (self_s self) (self_x1 self) (self_dt self)
       (self_time self) (Some xs) (Some ys) (Some zs).

(** ** Construction *)

(** [kwargs.get(k, dflt)] *)
Definition kwargs_get (kwargs : gmap string pyval) (k : string) (dflt : pyval) : pyval :=
  default dflt (kwargs !! k).

(** [assert cond, msg] *)
Definition py_assert (cond : bool) (msg : string) : result unit :=
  if cond then Ok tt else Raise (AssertionError msg).

Definition check_parameters (self : HindmarshRose) : result unit :=
  _ ← py_assert (isinstance_int_float (self_I self)) "The current (I) has to be a number.";
  _ ← py_assert (isinstance_int_float (self_a self)) "The parameter a has to be a number.";
  _ ← py_assert (isinstance_int_float (self_b self)) "The parameter b has to be a number.";
  _ ← py_assert (isinstance_int_float (self_c self)) "The parameter c has to be a number.";
  _ ← py_assert (isinstance_int_float (self_d self)) "The parameter d has to be a number.";
  _ ← py_assert (isinstance_int_float (self_r self)) "The parameter r has to be a number.";
  _ ← py_assert (isinstance_int_float (self_x1 self)) "The parameter x1 has to be a number.";
  _ ← py_assert (isinstance_int_float (self_s self)) "The parameter s has to be a number.";
  _ ← py_assert (isinstance_int_float (self_dt self)) "The step (dt) has to be a number.";
  py_assert (isinstance_int_float (self_time self)) "The time has to be a number.".

(** The attribute assignments of [__init__], before the check. *)
Definition init_fields (kwargs : gmap string pyval) : HindmarshRose :=
  {| self_I := kwargs_get kwargs "I" (PyInt 1);
     self_a := kwargs_get kwargs "a" (PyFloat 0.5);
     self_b := kwargs_get kwargs "b" (PyFloat 0.5);
     self_c := kwargs_get kwargs "c" (PyFloat 0.5);
     self_d := kwargs_get kwargs "d" (PyFloat 0.5);
     self_r := kwargs_get kwargs "r" (PyInt 1);
     self_s := kwargs_get kwargs "s" (PyInt 1);
     self_x1 := kwargs_get kwargs "x1" (PyInt (-1));
     self_dt := kwargs_get kwargs "dt" (PyFloat 0.01);
     self_time := kwargs_get kwargs "time" (PyInt 100);
     self_x := None; self_y := None; self_z := None |}.

(** [__init__(self, kwargs)]: an exception of the check leaves no object. *)
Definition init (kwargs : gmap string pyval) : result HindmarshRose :=
  let self := init_fields kwargs in
  _ ← check_parameters self;
  Ok self.

(** The ten keys [__init__] reads. *)
Definition recognized : list string :=
  ["I"; "a"; "b"; "c"; "d"; "r"; "s"; "x1"; "dt"; "time"]%string.

(** ** The time grid: [numpy.arange]

    [arange] is numpy's; the model follows [PyArray_ArangeObj]: the
    element type found from the three bounds, the length computation
    ([_calc_length]: Python subtraction and true division, a ceiling, and
    the rule for a quotient that underflows to zero), the test of the
    size in bytes, and the fill loops.  An allocation that fails for lack
    of memory is not modelled. *)

Inductive dtype : Type := Int64 | Float64 | Object.

(** The element type of one Python number: an integer that does not fit
    [int64] is [uint64] when it fits that, a Python object otherwise. *)
Inductive descr : Type := DBool | DInt64 | DUInt64 | DFloat64 | DObject.

(** For a value that is not a number the element type plays no role: the
    length computation raises before it is used. *)
Definition discover (v : pyval) : descr :=
  match v with
  | PyBool _ => DBool
  | PyInt n =>
      if (- 2 ^ 63 <=? n) && (n <? 2 ^ 63) then DInt64
      else if (0 <=? n) && (n <? 2 ^ 64) then DUInt64
      else DObject
  | PyFloat _ => DFloat64
  | _ => DObject
  end.

(** Promotion: [int64] with [uint64] is [float64]. *)
Definition promote (dt : dtype) (d : descr) : dtype :=
  match dt, d with
  | Object, _ | _, DObject => Object
  | Int64, DBool | Int64, DInt64 => Int64
  | _, _ => Float64
  end.

(** The element type of the grid, at least [int64]. *)
Definition result_dtype (start stop step : pyval) : dtype :=
  promote (promote (promote Int64 (discover start)) (discover stop)) (discover step).

Definition wrap64 (n : Z) : Z := (n + 2 ^ 63) mod 2 ^ 64 - 2 ^ 63.

(** The ceiling of a finite double, [None] for an infinity or a NaN. *)
Definition float_ceil (f : float) : option Z :=
  match Prim2SF f with
  | S754_zero _ => Some 0
  | S754_finite sg m e =>
      let n := if sg then Z.neg m else Z.pos m in
      Some (if 0 <=? e then n * 2 ^ e else - ((- n) / 2 ^ (- e)))
  | _ => None
  end.

(** The ceiling as an [npy_intp].  The test compares doubles, and the
    upper bound [2^63 - 1] is [2^63] as a double: a ceiling of [2^63]
    passes it, and its conversion to a 64-bit integer is [- 2^63], as the
    conversion instruction of x86-64 gives it. *)
Definition arange_safe_ceil_to_intp (value : float) : result Z :=
  if is_nan value then Raise ValueError
  else match float_ceil value with
       | Some n =>
           if (- 2 ^ 63 <=? n) && (n <=? 2 ^ 63) then Ok (wrap64 n)
           else Raise OverflowError
       | None => Raise OverflowError
       end.

(** [v != 0] on a number *)
Definition is_nonzero (v : pyval) : bool :=
  match as_num v with
  | Some (NInt n) => negb (n =? 0)
  | Some (NFloat f) => negb (f =? 0)%float
  | None => true
  end.

(** The length, and [next = start + step], which is computed only for a
    positive length ([None] stands for the pointer left unset). *)
Definition calc_length (start stop step : pyval) : result (Z * pyval) :=
  diff ← py_sub stop start;
  value ← py_truediv diff step;
  len ← arange_safe_ceil_to_intp value;
  let len := if is_zero value && is_nonzero diff
             then (if get_sign value then 0 else 1)
             else len in
  if 0 <? len then next ← py_add start step; Ok (len, next)
  else Ok (len, PyNone).

(** Storing a Python number in an array cell of the given element type. *)
Definition cast (dt : dtype) (v : pyval) : result pyval :=
  match dt, as_num v with
  | Object, _ => Ok v
  | Int64, Some (NInt n) =>
      if (- 2 ^ 63 <=? n) && (n <? 2 ^ 63) then Ok (PyInt n) else Raise OverflowError
  | Float64, Some (NInt n) => f ← to_double n; Ok (PyFloat f)
  | Float64, Some (NFloat f) => Ok (PyFloat f)
  | _, _ => Raise TypeError
  end.

(** Cell [i] of the fill loop of [int64] and of [float64], from the first
    two cells. *)
Definition fill_cell (first second : pyval) (i : Z) : pyval :=
  match first, second with
  | PyInt n0, PyInt n1 =>
      let delta := wrap64 (n1 - n0) in PyInt (wrap64 (n0 + wrap64 (i * delta)))
  | PyFloat f0, PyFloat f1 =>
      let delta := (f1 - f0)%float in PyFloat (f0 + float_of_Z i * delta)
  | _, _ => PyNone
  end.

(** [for (i = from; i < from + count; ++i) buffer[i] = start + i*delta] *)
Fixpoint fill (first second : pyval) (from : Z) (count : nat) : list pyval :=
  match count with
  | O => []
  | S k => fill_cell first second from :: fill first second (from + 1) k
  end.

(** The fill loop of Python objects: each cell is the one before plus
    [delta], in Python's arithmetic. *)
Fixpoint object_cells (delta prev : pyval) (count : nat) : result (list pyval) :=
  match count with
  | O => Ok []
  | S k =>
      cell ← py_add prev delta;
      rest ← object_cells delta cell k;
      Ok (cell :: rest)
  end.

Definition object_fill (first second : pyval) (count : nat) : result (list pyval) :=
  delta ← py_sub second first;
  start ← py_add first delta;
  object_cells delta start count.

(** The cells from index 2 on. *)
Definition fill_from_2 (dt : dtype) (first second : pyval) (count : nat)
    : result (list pyval) :=
  match dt with
  | Object => object_fill first second count
  | _ => Ok (fill first second 2 count)
  end.

(** An [OverflowError] of the length computation is raised as
    [ValueError] ("Maximum allowed size exceeded"); an empty grid is
    returned before any cell is stored; an array of 8-byte cells whose
    size in bytes exceeds [ssize_max] is a [ValueError]. *)
Definition np_arange (start stop step : pyval) : result (list pyval) :=
  let '(start, stop) :=
    match stop with PyNone => (PyInt 0, start) | _ => (start, stop) end in
  let step := match step with PyNone => PyInt 1 | _ => step end in
  let dt := result_dtype start stop step in
  match calc_length start stop step with
  | Raise OverflowError => Raise ValueError
  | Raise e => Raise e
  | Ok (len, next) =>
      if len <=? 0 then Ok []
      else if ssize_max / 8 <? len then Raise ValueError
      else
        first ← cast dt start;
        if len =? 1 then Ok [first]
        else
          second ← cast dt next;
          if len =? 2 then Ok [first; second]
          else
            rest ← fill_from_2 dt first second (Z.to_nat (len - 2));
            Ok (first :: second :: rest)
  end.

(** [self.tvec], recomputed on every access. *)
Definition tvec (self : HindmarshRose) : result (list pyval) :=
  np_arange (PyInt 0) (self_time self) (self_dt self).

(** ** The right-hand side and [run] *)

(** The matrix [odeint] returns: [shape = (length rows, ncols)]. *)
Record ndarray2 : Type := mkArray {
  ncols : nat;
  rows : list (list float)
}.

(** [X[:, k]] *)
Definition column (X : ndarray2) (k : nat) : result (list float) :=
  if (k <? ncols X)%nat
  then Ok (map (fun row => nth k row zero) (rows X))
  else Raise IndexError.

(** The right-hand side as the solver calls it: state, time, extra argument. *)
Definition rhs : Type := list pyval -> pyval -> pyval -> result (list pyval).

Section Model.

(** [f ** n] on a float goes through the C library's [pow], which is not
    part of the repository. *)
Variable float_pow : float -> Z -> result float.

(** [v ** n] for the literal exponents [2] and [3] of the source. *)
Definition py_pow (v : pyval) (n : Z) : result pyval :=
  match as_num v with
  | Some (NInt m) => Ok (PyInt (m ^ n))
  | Some (NFloat f) => p ← float_pow f n; Ok (PyFloat p)
  | None => Raise TypeError
  end.

(** [system_equations(self, X, t, I)], operands evaluated left to right. *)
Definition system_equations (self : HindmarshRose) (X : list pyval)
    (t : pyval) (I : pyval) : result (list pyval) :=
  X1 ← getitem X 1;
  X0 ← getitem X 0;
  p ← py_pow X0 3;
  u ← py_mul (self_a self) p;
  e ← py_sub X1 u;
  X0 ← getitem X 0;
  p ← py_pow X0 2;
  u ← py_mul (self_b self) p;
  e ← py_add e u;
  X2 ← getitem X 2;
  e ← py_sub e X2;
  dx ← py_add e I;
  X0 ← getitem X 0;
  p ← py_pow X0 2;
  u ← py_mul (self_d self) p;
  e ← py_sub (self_c self) u;
  X1 ← getitem X 1;
  dy ← py_sub e X1;
  X0 ← getitem X 0;
  e ← py_sub X0 (self_x1 self);
  e ← py_mul (self_s self) e;
  X2 ← getitem X 2;
  e ← py_sub e X2;
  dz ← py_mul (self_r self) e;
  Ok [dx; dy; dz].

(** [scipy.integrate.odeint(func, y0, t, args)] is not part of the
    repository. *)
Variable odeint : rhs -> pyval -> list pyval -> pyval -> result ndarray2.

(** [run(self, X0, I)]: the object after the call, and [None] or the
    exception that left it. *)
Definition run (self : HindmarshRose) (X0 : pyval) (I : pyval)
    : HindmarshRose * result unit :=
  let resolved :=
    match I with
    | PyNone => (self, self_I self)
    | _ => (set_I self I, I)
    end in
  let self := fst resolved in
  let I := snd resolved in
  let sliced :=
    t ← tvec self;
    X ← odeint (system_equations self) X0 t I;
    xs ← column X 0;
    ys ← column X 1;
    zs ← column X 2;
    Ok (xs, ys, zs) in
  match sliced with
  | Ok (xs, ys, zs) => (set_xyz self xs ys zs, Ok tt)
  | Raise e => (self, Raise e)
  end.

(** The object and the current after the first statement of [run]. *)
Definition resolve (self : HindmarshRose) (I : pyval) : HindmarshRose * pyval :=
  match I with
  | PyNone => (self, self_I self)
  | _ => (set_I self I, I)
  end.

(** The three columns of the solver's matrix, or the first exception. *)
Definition integrate (self : HindmarshRose) (X0 I : pyval)
    : result (list float * list float * list float) :=
  t ← tvec self;
  X ← odeint (system_equations self) X0 t I;
  xs ← column X 0;
  ys ← column X 1;
  zs ← column X 2;
  Ok (xs, ys, zs).

End Model.

(** The default of [X0]. *)
Definition X0_default : pyval := PyList [PyInt 0; PyInt 0; PyInt 0].

(** ** The equations as formulas

    The right-hand side of the model written as three expressions, each
    operand a value or an exception and each operator Python's. *)

Definition lift2 (op : pyval -> pyval -> result pyval) (ru rv : result pyval)
    : result pyval :=
  u ← ru; v ← rv; op u v.

Declare Scope py_scope.
Delimit Scope py_scope with py.
Notation "u + v" := (lift2 py_add u v) : py_scope.
Notation "u - v" := (lift2 py_sub u v) : py_scope.
Notation "u * v" := (lift2 py_mul u v) : py_scope.

Definition equations (float_pow : float -> Z -> result float)
    (self : HindmarshRose) (x y z I : pyval) : result (list pyval) :=
  let a := Ok (self_a self) in
  let b := Ok (self_b self) in
  let c := Ok (self_c self) in
  let d := Ok (self_d self) in
  let r := Ok (self_r self) in
  let s := Ok (self_s self) in
  let x1 := Ok (self_x1 self) in
  let cube := py_pow float_pow x 3 in
  let square := py_pow float_pow x 2 in
  dx ← (Ok y - a * cube + b * square - Ok z + Ok I)%py;
  dy ← (c - d * square - Ok y)%py;
  dz ← (r * (s * (Ok x - x1) - Ok z))%py;
  Ok [dx; dy; dz].

(** ** Objects, a stand-in solver and predicates used in the statements *)

(** [HindmarshRose()] *)
Definition defaults : HindmarshRose := init_fields ∅.

(** Python's [==] on two numbers: an integer and a float are compared by
    value, without rounding the integer. *)
Definition py_eqb (u v : pyval) : bool :=
  match as_num u, as_num v with
  | Some (NInt m), Some (NInt n) => m =? n
  | Some (NFloat f), Some (NFloat g) => (f =? g)%float
  | Some (NInt n), Some (NFloat f) | Some (NFloat f), Some (NInt n) =>
      match float_ceil f with
      | Some c => (c =? n) && (float_of_Z n =? f)%float
      | None => false
      end
  | _, _ => false
  end.

Fixpoint py_list_eqb (us vs : list pyval) : bool :=
  match us, vs with
  | [], [] => true
  | u :: us, v :: vs => py_eqb u v && py_list_eqb us vs
  | _, _ => false
  end.

(** A stand-in for the C library's [pow]: repeated multiplication. *)
Definition pow_by_mul (f : float) (n : Z) : result float :=
  Ok (Z.iter n (fun p => (p * f)%float) one).

(** What [odeint] documents about its result: a matrix of shape
    [(len(t), len(y0))]. *)
Definition odeint_shape
    (odeint : rhs -> pyval -> list pyval -> pyval -> result ndarray2) : Prop :=
  forall func y0 t args X,
    odeint func y0 t args = Ok X ->
    length (rows X) = length t
    /\ (forall l, y0 = PyList l -> ncols X = length l).

(** A number as an array cell of type double. *)
Definition as_double (v : pyval) : result float :=
  match as_num v with
  | Some (NInt n) => to_double n
  | Some (NFloat f) => Ok f
  | None => Raise TypeError
  end.

Fixpoint as_doubles (l : list pyval) : result (list float) :=
  match l with
  | [] => Ok []
  | v :: l => f ← as_double v; fs ← as_doubles l; Ok (f :: fs)
  end.

(** A stand-in for the solver, with the driver loop of [odeint]: row 0 is
    the initial state, and each further row is reached from the previous
    one; where [odeint] calls LSODA to advance from [t0] to [t1], the
    stand-in takes one forward Euler step.  The right-hand side is called
    on a float vector, and its result must have the size of the state. *)
Definition euler_step (func : rhs) (args : pyval) (y : list float) (t0 t1 : float)
    : result (list float) :=
  dy ← func (map PyFloat y) (PyFloat t0) args;
  dy ← as_doubles dy;
  if (length dy =? length y)%nat
  then Ok (zip_with (fun yi di => (yi + (t1 - t0) * di)%float) y dy)
  else Raise RuntimeError.

Fixpoint euler_rows (func : rhs) (args : pyval) (y : list float) (t0 : float)
    (ts : list float) : result (list (list float)) :=
  match ts with
  | [] => Ok []
  | t1 :: ts =>
      y1 ← euler_step func args y t0 t1;
      rest ← euler_rows func args y1 t1 ts;
      Ok (y1 :: rest)
  end.

Definition odeint_euler (func : rhs) (y0 : pyval) (t : list pyval) (args : pyval)
    : result ndarray2 :=
  match y0 with
  | PyList l =>
      y ← as_doubles l;
      ts ← as_doubles t;
      match ts with
      | [] => Ok (mkArray (length y) [])
      | t0 :: ts =>
          rest ← euler_rows func args y t0 ts;
          Ok (mkArray (length y) (y :: rest))
      end
  | _ => Raise ValueError
  end.




(** [HindmarshRose(time=1, dt=0.25)]: a grid of four points *)
Definition coarse : HindmarshRose :=
  init_fields (<["time" := PyInt 1]> (<["dt" := PyFloat 0.25]> ∅)).


(** Two objects with the same ten configuration fields. *)
Definition same_parameters (m1 m2 : HindmarshRose) : Prop :=
  self_I m1 = self_I m2 /\ self_a m1 = self_a m2 /\ self_b m1 = self_b m2
  /\ self_c m1 = self_c m2 /\ self_d m1 = self_d m2 /\ self_r m1 = self_r m2
  /\ self_s m1 = self_s m2 /\ self_x1 m1 = self_x1 m2
  /\ self_dt m1 = self_dt m2 /\ self_time m1 = self_time m2.




(** An [int] (a [bool] is one); a [float]. *)
Definition is_int (v : pyval) : bool :=
  match as_num v with
  | Some (NInt _) => true
  | _ => false
  end.


(** A float, or an integer that fits a signed 64-bit integer. *)
Definition int64_or_float (v : pyval) : bool :=
  match as_num v with
  | Some (NInt n) => (- 2 ^ 63 <=? n) && (n <? 2 ^ 63)
  | Some (NFloat _) => true
  | None => false
  end.




(** ** The rest of the class: [__repr__], [plot], [phase_plane] *)

(** The checks of [check_parameters] as a table, in the order of the
    source: the value checked and the message of its assertion. *)
Definition checks (self : HindmarshRose) : list (pyval * string) :=
  [ (self_I self, "The current (I) has to be a number.");
    (self_a self, "The parameter a has to be a number.");
    (self_b self, "The parameter b has to be a number.");
    (self_c self, "The parameter c has to be a number.");
    (self_d self, "The parameter d has to be a number.");
    (self_r self, "The parameter r has to be a number.");
    (self_x1 self, "The parameter x1 has to be a number.");
    (self_s self, "The parameter s has to be a number.");
    (self_dt self, "The step (dt) has to be a number.");
    (self_time self, "The time has to be a number.") ]%string.

(** The ten configuration attributes of an object as keyword arguments. *)
Definition as_kwargs (self : HindmarshRose) : gmap string pyval :=
  <["I" := self_I self]> (<["a" := self_a self]> (<["b" := self_b self]>
  (<["c" := self_c self]> (<["d" := self_d self]> (<["r" := self_r self]>
  (<["s" := self_s self]> (<["x1" := self_x1 self]> (<["dt" := self_dt self]>
  (<["time" := self_time self]> ∅))))))))).

(** The object without [x], [y], [z]. *)
Definition fresh (self : HindmarshRose) : HindmarshRose :=
  mkHR (self_I self) (self_a self) (self_b self) (self_c self) (self_d self)
       (self_r self) (self_s self) (self_x1 self) (self_dt self)
       (self_time self) None None None.

Section Repr.

(** How an f-string shows a value ([format(v, "")]) is Python's; it can
    raise. *)
Variable py_format : pyval -> result string.

(** [__repr__(self)], the six fields formatted from left to right *)
Definition repr (self : HindmarshRose) : result string :=
  a ← py_format (self_a self);
  b ← py_format (self_b self);
  c ← py_format (self_c self);
  d ← py_format (self_d self);
  dt ← py_format (self_dt self);
  time ← py_format (self_time self);
  Ok ("HindmarshRose(a=" +:+ a +:+ ", b=" +:+ b +:+ ", c=" +:+ c
      +:+ ", d=" +:+ d +:+ ", dt=" +:+ dt +:+ ", time=" +:+ time +:+ ")").

End Repr.

(** *** Plotting

    [plot] and [phase_plane] read attributes of the object and call
    matplotlib.  The model keeps the calls, in order, with their
    arguments; whether matplotlib accepts a call is a parameter. *)

Inductive call : Type :=
| subplots (nrows ncols : nat) (figsize : Z * Z) (tight_layout : bool)
| ax_plot (ax : nat) (xdata ydata : list pyval) (color : string)
| ax_set_title (ax : nat) (label : string) (fontsize : Z)
| ax_set_xlabel (ax : nat) (label : string) (fontsize : Z)
| ax_set_ylabel (ax : nat) (label : string) (fontsize : Z)
| ax_grid (ax : nat) (alpha : float)
| show.

(** What ends a plotting method early: a missing attribute, or an
    exception of the grid or of matplotlib. *)
Inductive raised : Type :=
| AttributeError (name : string)
| Propagated (e : exn).

Inductive outcome (A : Type) : Type :=
| Done (v : A)
| Failed (e : raised).
Arguments Done {A} v.
Arguments Failed {A} e.

(** A method that calls matplotlib: from the calls made so far to the
    calls made and its outcome. *)
Definition script (A : Type) : Type := list call -> list call * outcome A.

#[export] Instance script_ret : MRet script := fun _ v log => (log, Done v).
#[export] Instance script_bind : MBind script := fun _ _ k m log =>
  match m log with
  | (log', Done v) => k v log'
  | (log', Failed e) => (log', Failed e)
  end.

(** [self.tvec] and the like, inside a plotting method *)
Definition lift {A} (r : result A) : script A := fun log =>
  match r with
  | Ok v => (log, Done v)
  | Raise e => (log, Failed (Propagated e))
  end.

(** [self.x], [self.y], [self.z]: the attribute exists only after a run. *)
Definition getattr {A} (name : string) (field : option A) : script A := fun log =>
  match field with
  | Some v => (log, Done v)
  | None => (log, Failed (AttributeError name))
  end.

(** A curve whose two sequences have the same length. *)
Definition aligned (c : call) : bool :=
  match c with
  | ax_plot _ xdata ydata _ => (length xdata =? length ydata)%nat
  | _ => true
  end.

Definition is_ax_plot (c : call) : bool :=
  match c with
  | ax_plot _ _ _ _ => true
  | _ => false
  end.

Section Plotting.

(** matplotlib, which is not part of the repository: given the calls made
    so far, a call returns or raises.  For [subplots] this includes the
    unpacking of the axes it returns. *)
Variable pyplot : list call -> call -> result unit.

Definition emit (c : call) : script unit := fun log =>
  match pyplot log c with
  | Ok _ => (log ++ [c], Done tt)
  | Raise e => (log, Failed (Propagated e))
  end.

(** [plot(self)] *)
Definition plot (self : HindmarshRose) : script unit :=
  _ ← emit (subplots 1 3 (13, 3) true);
  t ← lift (tvec self);
  xs ← getattr "x" (self_x self);
  _ ← emit (ax_plot 1 t (PyFloat <$> xs) "royalblue");
  _ ← emit (ax_set_title 1 "x" 15);
  _ ← emit (ax_set_xlabel 1 "time [ms]" 12);
  _ ← emit (ax_set_ylabel 1 "x(t)" 12);
  _ ← emit (ax_grid 1 0.3);
  t ← lift (tvec self);
  ys ← getattr "y" (self_y self);
  _ ← emit (ax_plot 2 t (PyFloat <$> ys) "lightcoral");
  _ ← emit (ax_set_title 2 "y" 15);
  _ ← emit (ax_set_xlabel 2 "time [ms]" 12);
  _ ← emit (ax_set_ylabel 2 "y(t)" 12);
  _ ← emit (ax_grid 2 0.3);
  t ← lift (tvec self);
  zs ← getattr "z" (self_z self);
  _ ← emit (ax_plot 3 t (PyFloat <$> zs) "goldenrod");
  _ ← emit (ax_set_title 3 "z" 15);
  _ ← emit (ax_set_xlabel 3 "time [ms]" 12);
  _ ← emit (ax_set_ylabel 3 "z(t)" 12);
  _ ← emit (ax_grid 3 0.3);
  emit show.

(** [phase_plane(self)] *)
Definition phase_plane (self : HindmarshRose) : script unit :=
  _ ← emit (subplots 1 2 (13, 3) true);
  xs ← getattr "x" (self_x self);
  ys ← getattr "y" (self_y self);
  _ ← emit (ax_plot 1 (PyFloat <$> xs) (PyFloat <$> ys) "royalblue");
  _ ← emit (ax_set_xlabel 1 "x" 12);
  _ ← emit (ax_set_ylabel 1 "y" 12);
  _ ← emit (ax_grid 1 0.3);
  xs ← getattr "x" (self_x self);
  zs ← getattr "z" (self_z self);
  _ ← emit (ax_plot 2 (PyFloat <$> xs) (PyFloat <$> zs) "royalblue");
  _ ← emit (ax_set_xlabel 2 "x" 12);
  _ ← emit (ax_set_ylabel 2 "z" 12);
  _ ← emit (ax_grid 2 0.3);
  emit show.

End Plotting.

(** The calls of a [plot] that runs to its end, for a grid [t] and the
    three sequences. *)
Definition plot_calls (t : list pyval) (xs ys zs : list float) : list call :=
  [ subplots 1 3 (13, 3) true;
    ax_plot 1 t (PyFloat <$> xs) "royalblue";
    ax_set_title 1 "x" 15; ax_set_xlabel 1 "time [ms]" 12;
    ax_set_ylabel 1 "x(t)" 12; ax_grid 1 0.3;
    ax_plot 2 t (PyFloat <$> ys) "lightcoral";
    ax_set_title 2 "y" 15; ax_set_xlabel 2 "time [ms]" 12;
    ax_set_ylabel 2 "y(t)" 12; ax_grid 2 0.3;
    ax_plot 3 t (PyFloat <$> zs) "goldenrod";
    ax_set_title 3 "z" 15; ax_set_xlabel 3 "time [ms]" 12;
    ax_set_ylabel 3 "z(t)" 12; ax_grid 3 0.3;
    show ].

(** The calls of a [phase_plane] that runs to its end. *)
Definition phase_plane_calls (xs ys zs : list float) : list call :=
  [ subplots 1 2 (13, 3) true;
    ax_plot 1 (PyFloat <$> xs) (PyFloat <$> ys) "royalblue";
    ax_set_xlabel 1 "x" 12; ax_set_ylabel 1 "y" 12; ax_grid 1 0.3;
    ax_plot 2 (PyFloat <$> xs) (PyFloat <$> zs) "royalblue";
    ax_set_xlabel 2 "x" 12; ax_set_ylabel 2 "z" 12; ax_grid 2 0.3;
    show ].

(** A matplotlib that accepts every call. *)
Definition pyplot_accepts (log : list call) (c : call) : result unit := Ok tt.

(** Objects that agree on [a], [b], [c], [d], [r], [s], [x1], [dt] and
    [time]. *)
Definition same_coefficients (m1 m2 : HindmarshRose) : Prop :=
  self_a m1 = self_a m2 /\ self_b m1 = self_b m2 /\ self_c m1 = self_c m2
  /\ self_d m1 = self_d m2 /\ self_r m1 = self_r m2 /\ self_s m1 = self_s m2
  /\ self_x1 m1 = self_x1 m2 /\ self_dt m1 = self_dt m2
  /\ self_time m1 = self_time m2.

(** * Properties *)

Ltac unfold_result := unfold mbind, result_bind, mret, result_ret in *.


(** The checks of [check_parameters], in their order. *)
Ltac next_check tac :=
  match goal with
  | |- context [isinstance_int_float ?v] =>
      destruct (isinstance_int_float v) eqn:?; cbn [py_assert]; [ | tac ]
  end.

Lemma as_doubles_length l fs : as_doubles l = Ok fs -> length fs = length l.
Proof.
  revert fs. induction l as [|v l IH]; simpl; intros fs H.
  - inversion H. reflexivity.
  - unfold_result. destruct (as_double v); [ | discriminate ].
    destruct (as_doubles l) as [fs'|] eqn:E; [ | discriminate ].
    inversion H. simpl. f_equal. apply IH. reflexivity.
Qed.

Lemma euler_rows_length func args ts : forall y t0 rs,
  euler_rows func args y t0 ts = Ok rs -> length rs = length ts.
Proof.
  induction ts as [|t1 ts IH]; simpl; intros y t0 rs H.
  - inversion H. reflexivity.
  - unfold_result. destruct (euler_step func args y t0 t1) as [y1|]; [ | discriminate ].
    destruct (euler_rows func args y1 t1 ts) as [rest|] eqn:E; [ | discriminate ].
    inversion H. simpl. f_equal. eapply IH. exact E.
Qed.

Lemma odeint_euler_shape : odeint_shape odeint_euler.
Proof.
  intros func y0 t args X H. unfold odeint_euler in H.
  destruct y0 as [| | | | |l]; try discriminate.
  unfold_result.
  destruct (as_doubles l) as [y|] eqn:Ey; [ | discriminate ].
  destruct (as_doubles t) as [ts|] eqn:Et; [ | discriminate ].
  apply as_doubles_length in Ey, Et.
  destruct ts as [|t0 ts].
  - inversion H; subst; simpl in *. split; [ lia | ].
    intros l' Hl. inversion Hl; subst. exact Ey.
  - destruct (euler_rows func args y t0 ts) as [rest|] eqn:Er; [ | discriminate ].
    apply euler_rows_length in Er.
    inversion H; subst; simpl in *. split; [ lia | ].
    intros l' Hl. inversion Hl; subst. exact Ey.
Qed.

(** ** The right-hand side *)

Section RightHandSide.

Variable float_pow : float -> Z -> result float.

Lemma system_equations_ignores_t self X t t' I :
  system_equations float_pow self X t I = system_equations float_pow self X t' I.
Proof. reflexivity. Qed.

(** On integers the arithmetic is exact. *)
Lemma system_equations_int a b c d r s x1 I0 dt tm xs ys zs x y z t I :
  system_equations float_pow
    (mkHR I0 (PyInt a) (PyInt b) (PyInt c) (PyInt d) (PyInt r) (PyInt s)
          (PyInt x1) dt tm xs ys zs)
    [PyInt x; PyInt y; PyInt z] t (PyInt I)
  = Ok [PyInt (y - a * x ^ 3 + b * x ^ 2 - z + I);
        PyInt (c - d * x ^ 2 - y);
        PyInt (r * (s * (x - x1) - z))].
Proof. reflexivity. Qed.

(** On floats every operation rounds to binary64, in the order the source
    writes them. *)
Lemma system_equations_float a b c d r s x1 I0 dt tm xs ys zs x y z t I p2 p3 :
  float_pow x 2 = Ok p2 ->
  float_pow x 3 = Ok p3 ->
  system_equations float_pow
    (mkHR I0 (PyFloat a) (PyFloat b) (PyFloat c) (PyFloat d) (PyFloat r)
          (PyFloat s) (PyFloat x1) dt tm xs ys zs)
    [PyFloat x; PyFloat y; PyFloat z] t (PyFloat I)
  = Ok [PyFloat (y - a * p3 + b * p2 - z + I)%float;
        PyFloat (c - d * p2 - y)%float;
        PyFloat (r * (s * (x - x1) - z))%float].
Proof.
  intros H2 H3. unfold system_equations, py_pow. simpl.
  unfold_result. rewrite H2, H3. reflexivity.
Qed.

(** On any three values the result is that of the three formulas, the
    first exception included. *)
Lemma system_equations_formula self x y z rest t I :
  system_equations float_pow self (x :: y :: z :: rest) t I
  = equations float_pow self x y z I.
Proof.
  unfold system_equations, equations, lift2, getitem. simpl. unfold_result.
  repeat match goal with
         | |- context [match ?r with Ok _ => _ | Raise _ => _ end] =>
             lazymatch r with
             | Ok _ => fail
             | Raise _ => fail
             | _ => destruct r eqn:?
             end
         end;
    reflexivity.
Qed.

End RightHandSide.

(** C1: [system_equations] is a function of the state and the current only
    (its result does not depend on [t]); on a state [x, y, z] it returns
    [y - a*x^3 + b*x^2 - z + current, c - d*x^2 - y, r*(s*(x - x1) - z)]
    in Python's arithmetic (exact on integers, rounded to binary64 at each
    operation on floats), or the first exception of these expressions;
    on the state [1, 0, 0] with [t = 0], current [0] and the default
    coefficients it returns [0.0, 0.0, 2], which is [== [0, 0, 2]]. *)
Theorem C1_system_equations (float_pow : float -> Z -> result float) :
  (forall self X t t' I,
      system_equations float_pow self X t I = system_equations float_pow self X t' I)
  /\ (forall self x y z t I,
      system_equations float_pow self [x; y; z] t I = equations float_pow self x y z I)
  /\ (forall a b c d r s x1 I0 dt tm xs ys zs x y z t I,
      system_equations float_pow
        (mkHR I0 (PyInt a) (PyInt b) (PyInt c) (PyInt d) (PyInt r) (PyInt s)
              (PyInt x1) dt tm xs ys zs)
        [PyInt x; PyInt y; PyInt z] t (PyInt I)
      = Ok [PyInt (y - a * x ^ 3 + b * x ^ 2 - z + I);
            PyInt (c - d * x ^ 2 - y);
            PyInt (r * (s * (x - x1) - z))])
  /\ (forall a b c d r s x1 I0 dt tm xs ys zs x y z t I p2 p3,
      float_pow x 2 = Ok p2 ->
      float_pow x 3 = Ok p3 ->
      system_equations float_pow
        (mkHR I0 (PyFloat a) (PyFloat b) (PyFloat c) (PyFloat d) (PyFloat r)
              (PyFloat s) (PyFloat x1) dt tm xs ys zs)
        [PyFloat x; PyFloat y; PyFloat z] t (PyFloat I)
      = Ok [PyFloat (y - a * p3 + b * p2 - z + I)%float;
            PyFloat (c - d * p2 - y)%float;
            PyFloat (r * (s * (x - x1) - z))%float])
  /\ system_equations float_pow defaults [PyInt 1; PyInt 0; PyInt 0] (PyInt 0) (PyInt 0)
     = Ok [PyFloat 0; PyFloat 0; PyInt 2]
  /\ py_list_eqb [PyFloat 0; PyFloat 0; PyInt 2] [PyInt 0; PyInt 0; PyInt 2] = true.
Proof.
  split; [ exact (system_equations_ignores_t float_pow) | ].
  split; [ intros; apply system_equations_formula | ].
  split; [ exact (system_equations_int float_pow) | ].
  split; [ exact (system_equations_float float_pow) | ].
  split; vm_compute; reflexivity.
Qed.

(** ** Construction: the type check and the defaults *)

Lemma py_assert_true (msg : string) : py_assert true msg = Ok tt.
Proof. reflexivity. Qed.

Lemma kwargs_get_numeric (kwargs : gmap string pyval) k dflt :
  (forall v, kwargs !! k = Some v -> isinstance_int_float v = true) ->
  isinstance_int_float dflt = true ->
  isinstance_int_float (kwargs_get kwargs k dflt) = true.
Proof.
  intros Hk Hd. unfold kwargs_get.
  destruct (kwargs !! k) as [v|] eqn:E; simpl; auto.
Qed.

Lemma kwargs_get_insert_ne (kwargs : gmap string pyval) k k' v dflt :
  k <> k' -> kwargs_get (<[k := v]> kwargs) k' dflt = kwargs_get kwargs k' dflt.
Proof. intros Hne. unfold kwargs_get. by rewrite lookup_insert_ne. Qed.

Lemma check_parameters_raises_assertion self e :
  check_parameters self = Raise e -> exists msg, e = AssertionError msg.
Proof.
  unfold check_parameters, py_assert. unfold_result.
  repeat next_check ltac:(intros Hraise; inversion Hraise; eauto).
  discriminate.
Qed.

Lemma check_parameters_ok self :
  check_parameters self = Ok tt <->
  Forall (fun v => isinstance_int_float v = true)
    [self_I self; self_a self; self_b self; self_c self; self_d self;
     self_r self; self_x1 self; self_s self; self_dt self; self_time self].
Proof.
  unfold check_parameters, py_assert. unfold_result. split.
  - repeat next_check ltac:(discriminate).
    intros _. repeat constructor; assumption.
  - intros HF. repeat (apply Forall_cons in HF as [-> HF]). reflexivity.
Qed.

Lemma init_unfold kwargs :
  init kwargs = (_ ← check_parameters (init_fields kwargs); Ok (init_fields kwargs)).
Proof. reflexivity. Qed.

Lemma init_ok_fields kwargs self : init kwargs = Ok self -> self = init_fields kwargs.
Proof.
  rewrite init_unfold. unfold_result.
  destruct (check_parameters (init_fields kwargs)); congruence.
Qed.

(** C4: for each of the ten fields, a value that is not an [int], a [bool]
    or a [float] makes the constructor fail with the assertion error of
    [check_parameters], and no object is returned; when every field given
    is a number the constructor succeeds.  Booleans, integers and floats
    are numbers; [None], strings and lists are not. *)
Theorem C4_type_validation (kwargs : gmap string pyval) :
  (forall k v, k ∈ recognized -> kwargs !! k = Some v ->
               isinstance_int_float v = false ->
               exists msg, init kwargs = Raise (AssertionError msg))
  /\ ((forall k v, k ∈ recognized -> kwargs !! k = Some v ->
                   isinstance_int_float v = true) ->
      init kwargs = Ok (init_fields kwargs))
  /\ (forall b n f, isinstance_int_float (PyBool b) = true
                    /\ isinstance_int_float (PyInt n) = true
                    /\ isinstance_int_float (PyFloat f) = true)
  /\ (forall s l, isinstance_int_float PyNone = false
                  /\ isinstance_int_float (PyStr s) = false
                  /\ isinstance_int_float (PyList l) = false).
Proof.
  split; [ | split; [ | split; intros; repeat split ] ].
  - intros k v Hk Hlook Hv.
    assert (Hbad : check_parameters (init_fields kwargs) <> Ok tt).
    { rewrite check_parameters_ok. intros HF.
      unfold recognized in Hk.
      repeat (apply elem_of_cons in Hk as [-> | Hk]);
        try (by apply elem_of_nil in Hk);
        repeat (apply Forall_cons in HF as [? HF]);
        simpl in *; unfold kwargs_get in *; rewrite Hlook in *; simpl in *;
        congruence. }
    rewrite init_unfold. unfold_result.
    destruct (check_parameters (init_fields kwargs)) as [[]|e] eqn:E.
    + congruence.
    + apply check_parameters_raises_assertion in E as [msg ->]. eauto.
  - intros Hall. rewrite init_unfold.
    assert (Hok : check_parameters (init_fields kwargs) = Ok tt).
    { apply check_parameters_ok.
      repeat match goal with |- Forall _ _ => constructor end; simpl;
        (apply kwargs_get_numeric; [ | reflexivity ]);
        intros v Hv; (eapply Hall; [ | exact Hv ]);
        unfold recognized; set_solver. }
    rewrite Hok. reflexivity.
Qed.

(** A configuration with a string for [s] is rejected; one with a boolean
    for [I] and an integer for [dt] is accepted. *)
Lemma C4_type_validation_witness :
  (exists msg, init (<["s" := PyStr "fast"]> ∅) = Raise (AssertionError msg))
  /\ init (<["I" := PyBool true]> (<["dt" := PyInt 1]> ∅))
     = Ok (init_fields (<["I" := PyBool true]> (<["dt" := PyInt 1]> ∅))).
Proof.
  split.
  - apply (proj1 (C4_type_validation (<["s" := PyStr "fast"]> ∅)) "s" (PyStr "fast")).
    + unfold recognized. set_solver.
    + reflexivity.
    + reflexivity.
  - apply (proj1 (proj2 (C4_type_validation
                           (<["I" := PyBool true]> (<["dt" := PyInt 1]> ∅))))).
    intros k v Hk Hlook.
    destruct (decide (k = "I")) as [-> | HI].
    + rewrite lookup_insert_eq in Hlook. by inversion Hlook.
    + rewrite lookup_insert_ne in Hlook by congruence.
      destruct (decide (k = "dt")) as [-> | Hdt].
      * rewrite lookup_insert_eq in Hlook. by inversion Hlook.
      * rewrite lookup_insert_ne in Hlook by congruence.
        rewrite lookup_empty in Hlook. discriminate.
Defined.

Lemma init_fields_insert_unrecognized (kwargs : gmap string pyval) k v :
  k ∉ recognized -> init_fields (<[k := v]> kwargs) = init_fields kwargs.
Proof.
  intros Hk. unfold recognized in Hk. unfold init_fields.
  rewrite !kwargs_get_insert_ne; [ reflexivity | .. ];
    intros ->; apply Hk; set_solver.
Qed.

(** C9: a recognized option that is omitted takes its default ([I=1],
    [a=b=c=d=0.5], [r=s=1], [x1=-1], [dt=0.01], [time=100]), one that is
    given is stored as given, and an option under any other key changes
    nothing: the constructor returns what it returns without it. *)
Theorem C9_defaults_and_unrecognized (kwargs : gmap string pyval) :
  (forall self, init kwargs = Ok self ->
     (kwargs !! "I" = None -> self_I self = PyInt 1)
     /\ (kwargs !! "a" = None -> self_a self = PyFloat 0.5)
     /\ (kwargs !! "b" = None -> self_b self = PyFloat 0.5)
     /\ (kwargs !! "c" = None -> self_c self = PyFloat 0.5)
     /\ (kwargs !! "d" = None -> self_d self = PyFloat 0.5)
     /\ (kwargs !! "r" = None -> self_r self = PyInt 1)
     /\ (kwargs !! "s" = None -> self_s self = PyInt 1)
     /\ (kwargs !! "x1" = None -> self_x1 self = PyInt (-1))
     /\ (kwargs !! "dt" = None -> self_dt self = PyFloat 0.01)
     /\ (kwargs !! "time" = None -> self_time self = PyInt 100)
     /\ (forall v, kwargs !! "I" = Some v -> self_I self = v)
     /\ (forall v, kwargs !! "a" = Some v -> self_a self = v)
     /\ (forall v, kwargs !! "b" = Some v -> self_b self = v)
     /\ (forall v, kwargs !! "c" = Some v -> self_c self = v)
     /\ (forall v, kwargs !! "d" = Some v -> self_d self = v)
     /\ (forall v, kwargs !! "r" = Some v -> self_r self = v)
     /\ (forall v, kwargs !! "s" = Some v -> self_s self = v)
     /\ (forall v, kwargs !! "x1" = Some v -> self_x1 self = v)
     /\ (forall v, kwargs !! "dt" = Some v -> self_dt self = v)
     /\ (forall v, kwargs !! "time" = Some v -> self_time self = v))
  /\ (forall k v, k ∉ recognized -> init (<[k := v]> kwargs) = init kwargs)
  /\ init ∅ = Ok defaults.
Proof.
  split; [ | split ].
  - intros self Hinit. apply init_ok_fields in Hinit as ->.
    unfold init_fields, kwargs_get; simpl.
    repeat split; intros; match goal with H : _ !! _ = _ |- _ => by rewrite H end.
  - intros k v Hk. rewrite !init_unfold.
    by rewrite init_fields_insert_unrecognized.
  - reflexivity.
Qed.

(** A configuration that gives [a] and an unknown key [verbose]. *)
Lemma C9_defaults_and_unrecognized_witness :
  init (<["verbose" := PyBool true]> (<["a" := PyInt 2]> ∅))
  = init (<["a" := PyInt 2]> ∅)
  /\ (forall self, init (<["a" := PyInt 2]> ∅) = Ok self ->
        self_a self = PyInt 2 /\ self_dt self = PyFloat 0.01).
Proof.
  split.
  - apply (proj1 (proj2 (C9_defaults_and_unrecognized (<["a" := PyInt 2]> ∅)))).
    rewrite list_elem_of_In. simpl. intuition discriminate.
  - intros self Hinit.
    destruct (proj1 (C9_defaults_and_unrecognized (<["a" := PyInt 2]> ∅)) self Hinit)
      as (_ & _ & _ & _ & _ & _ & _ & _ & Hdt & _ & _ & Ha & _).
    split; [ apply Ha | apply Hdt ]; reflexivity.
Defined.

(** ** [run]: the stored current, the frame, determinism *)

Section Run.

Variable float_pow : float -> Z -> result float.
Variable odeint : rhs -> pyval -> list pyval -> pyval -> result ndarray2.

Lemma run_unfold self X0 I :
  run float_pow odeint self X0 I =
  match integrate float_pow odeint (fst (resolve self I)) X0 (snd (resolve self I)) with
  | Ok (xs, ys, zs) => (set_xyz (fst (resolve self I)) xs ys zs, Ok tt)
  | Raise e => (fst (resolve self I), Raise e)
  end.
Proof. destruct I; reflexivity. Qed.

Lemma resolve_explicit self v : v <> PyNone -> resolve self v = (set_I self v, v).
Proof. destruct v; simpl; congruence. Qed.

Lemma set_I_same self : set_I self (self_I self) = self.
Proof. destruct self; reflexivity. Qed.

Lemma resolve_stored self :
  self_I self <> PyNone -> resolve self (self_I self) = resolve self PyNone.
Proof.
  intros HI. rewrite resolve_explicit by assumption.
  rewrite set_I_same. reflexivity.
Qed.

(** The trajectory cache and the stored current are not read by the
    integration. *)
Lemma integrate_set_xyz self xs ys zs X0 I :
  integrate float_pow odeint (set_xyz self xs ys zs) X0 I = integrate float_pow odeint self X0 I.
Proof. reflexivity. Qed.

Lemma integrate_set_I self v X0 I :
  integrate float_pow odeint (set_I self v) X0 I = integrate float_pow odeint self X0 I.
Proof. reflexivity. Qed.

Lemma tvec_resolve self I : tvec (fst (resolve self I)) = tvec self.
Proof. destruct I; reflexivity. Qed.

Lemma self_I_resolve self I : self_I (fst (resolve self I)) = snd (resolve self I).
Proof. destruct I; reflexivity. Qed.

(** The three slices succeed together, exactly when the matrix has a
    column 2. *)
Lemma columns_unfold X :
  (xs ← column X 0; ys ← column X 1; zs ← column X 2; Ok (xs, ys, zs))
  = if (2 <? ncols X)%nat
    then Ok (map (fun row => nth 0 row zero) (rows X),
             map (fun row => nth 1 row zero) (rows X),
             map (fun row => nth 2 row zero) (rows X))
    else Raise IndexError.
Proof.
  unfold column. unfold_result.
  destruct (ncols X) as [|[|[|n]]]; reflexivity.
Qed.

(** [run] once the grid is known: the initial state goes to the solver as
    it is, and the call fails exactly when the solver or a slice does. *)
Lemma run_with_grid self X0 I t :
  tvec self = Ok t ->
  run float_pow odeint self X0 I =
  match odeint (system_equations float_pow (fst (resolve self I))) X0 t
               (snd (resolve self I)) with
  | Ok X =>
      if (2 <? ncols X)%nat
      then (set_xyz (fst (resolve self I))
                    (map (fun row => nth 0 row zero) (rows X))
                    (map (fun row => nth 1 row zero) (rows X))
                    (map (fun row => nth 2 row zero) (rows X)), Ok tt)
      else (fst (resolve self I), Raise IndexError)
  | Raise e => (fst (resolve self I), Raise e)
  end.
Proof.
  intros Ht. rewrite run_unfold. unfold integrate.
  rewrite tvec_resolve, Ht.
  change (mbind ?k (Ok t)) with (k t). cbv beta.
  destruct (odeint _ X0 t _) as [X|e]; [ | reflexivity ].
  change (mbind ?k (Ok X)) with (k X). cbv beta.
  rewrite columns_unfold. destruct (2 <? ncols X)%nat; reflexivity.
Qed.

(** [run] when the grid cannot be built: the solver is not called. *)
Lemma run_without_grid self X0 I e :
  tvec self = Raise e ->
  run float_pow odeint self X0 I = (fst (resolve self I), Raise e).
Proof.
  intros Ht. rewrite run_unfold. unfold integrate.
  rewrite tvec_resolve, Ht. reflexivity.
Qed.

(** What a normal return of [run] tells. *)
Lemma run_ok_inv self X0 I self' :
  run float_pow odeint self X0 I = (self', Ok tt) ->
  exists t X,
    tvec self = Ok t
    /\ odeint (system_equations float_pow (fst (resolve self I))) X0 t
              (snd (resolve self I)) = Ok X
    /\ (2 < ncols X)%nat
    /\ self' = set_xyz (fst (resolve self I))
                       (map (fun row => nth 0 row zero) (rows X))
                       (map (fun row => nth 1 row zero) (rows X))
                       (map (fun row => nth 2 row zero) (rows X)).
Proof.
  intros Hrun. destruct (tvec self) as [t|e] eqn:Ht.
  - rewrite (run_with_grid _ _ _ _ Ht) in Hrun.
    destruct (odeint _ X0 t _) as [X|e] eqn:EX; [ | discriminate ].
    destruct (2 <? ncols X)%nat eqn:Hc; [ | discriminate ].
    apply Nat.ltb_lt in Hc. inversion Hrun. eauto 10.
  - rewrite (run_without_grid _ _ _ _ Ht) in Hrun. discriminate.
Qed.

Lemma run_stores_explicit self X0 v :
  v <> PyNone -> self_I (fst (run float_pow odeint self X0 v)) = v.
Proof.
  intros Hv. rewrite run_unfold, resolve_explicit by assumption. simpl.
  destruct (integrate float_pow odeint (set_I self v) X0 v) as [[[xs ys] zs]|e]; reflexivity.
Qed.

(** C10: whatever the call does, [run] leaves [a], [b], [c], [d], [r],
    [s], [x1], [dt] and [time] as they were; the stored [I] is replaced
    only by an explicit current (one that is not [None]) and is otherwise
    unchanged, so a stored [I] that is not [None] stays so; [x], [y], [z]
    change only when the call returns normally. *)
Theorem C10_run_frame self X0 I :
  (self_a (fst (run float_pow odeint self X0 I)) = self_a self
   /\ self_b (fst (run float_pow odeint self X0 I)) = self_b self
   /\ self_c (fst (run float_pow odeint self X0 I)) = self_c self
   /\ self_d (fst (run float_pow odeint self X0 I)) = self_d self
   /\ self_r (fst (run float_pow odeint self X0 I)) = self_r self
   /\ self_s (fst (run float_pow odeint self X0 I)) = self_s self
   /\ self_x1 (fst (run float_pow odeint self X0 I)) = self_x1 self
   /\ self_dt (fst (run float_pow odeint self X0 I)) = self_dt self
   /\ self_time (fst (run float_pow odeint self X0 I)) = self_time self)
  /\ (I = PyNone -> self_I (fst (run float_pow odeint self X0 I)) = self_I self)
  /\ (I <> PyNone -> self_I (fst (run float_pow odeint self X0 I)) = I)
  /\ (self_I self <> PyNone ->
      self_I (fst (run float_pow odeint self X0 I)) <> PyNone)
  /\ (raises (snd (run float_pow odeint self X0 I)) ->
      self_x (fst (run float_pow odeint self X0 I)) = self_x self
      /\ self_y (fst (run float_pow odeint self X0 I)) = self_y self
      /\ self_z (fst (run float_pow odeint self X0 I)) = self_z self).
Proof.
  rewrite run_unfold.
  destruct (integrate float_pow odeint (fst (resolve self I)) X0 (snd (resolve self I)))
    as [[[xs ys] zs]|e] eqn:E; simpl.
  - split; [ destruct I; repeat split | ].
    split; [ intros ->; reflexivity | ].
    split; [ destruct I; simpl; congruence | ].
    split; [ destruct I; simpl; congruence | ].
    intros [e He]. discriminate.
  - split; [ destruct I; repeat split | ].
    split; [ intros ->; reflexivity | ].
    split; [ destruct I; simpl; congruence | ].
    split; [ destruct I; simpl; congruence | ].
    intros _. destruct I; repeat split.
Qed.

(** C3: an explicit current [v] is stored as [I]; calling [run] again on
    the resulting object with the current omitted, or with [v] once more,
    ends in the same object and the same outcome as the explicit call, in
    particular the same [x], [y], [z]; and a call without current is a
    call with the stored [I]. *)
Theorem C3_current_override self X0 v :
  v <> PyNone ->
  self_I (fst (run float_pow odeint self X0 v)) = v
  /\ run float_pow odeint (fst (run float_pow odeint self X0 v)) X0 PyNone
     = run float_pow odeint self X0 v
  /\ run float_pow odeint (fst (run float_pow odeint self X0 v)) X0 v
     = run float_pow odeint self X0 v
  /\ (self_I self <> PyNone ->
      run float_pow odeint self X0 PyNone
      = run float_pow odeint self X0 (self_I self))
  /\ run float_pow odeint self X0 PyNone
     = match integrate float_pow odeint self X0 (self_I self) with
       | Ok (xs, ys, zs) => (set_xyz self xs ys zs, Ok tt)
       | Raise e => (self, Raise e)
       end.
Proof.
  intros Hv.
  split; [ apply run_stores_explicit; assumption | ].
  split; [ | split; [ | split ] ].
  - rewrite (run_unfold self X0 v), resolve_explicit by assumption. simpl.
    destruct (integrate float_pow odeint (set_I self v) X0 v) as [[[xs ys] zs]|e] eqn:E; simpl.
    + rewrite run_unfold. simpl.
      rewrite integrate_set_xyz, E. reflexivity.
    + rewrite run_unfold. simpl. rewrite E. reflexivity.
  - rewrite (run_unfold self X0 v), resolve_explicit by assumption. simpl.
    destruct (integrate float_pow odeint (set_I self v) X0 v) as [[[xs ys] zs]|e] eqn:E; simpl.
    + rewrite run_unfold, resolve_explicit by assumption. simpl.
      change (set_I (set_xyz (set_I self v) xs ys zs) v)
        with (set_xyz (set_I self v) xs ys zs).
      rewrite integrate_set_xyz, E. reflexivity.
    + rewrite run_unfold, resolve_explicit by assumption. simpl.
      change (set_I (set_I self v) v) with (set_I self v).
      rewrite E. reflexivity.
  - intros HI. rewrite !run_unfold, resolve_stored by assumption. reflexivity.
  - rewrite run_unfold. reflexivity.
Qed.

Lemma integrate_same_parameters m1 m2 X0 I :
  same_parameters m1 m2 -> integrate float_pow odeint m1 X0 I = integrate float_pow odeint m2 X0 I.
Proof.
  destruct m1, m2. unfold same_parameters. simpl.
  intros (_ & -> & -> & -> & -> & -> & -> & -> & -> & ->). reflexivity.
Qed.

Lemma resolve_same_parameters m1 m2 I :
  same_parameters m1 m2 ->
  same_parameters (fst (resolve m1 I)) (fst (resolve m2 I))
  /\ snd (resolve m1 I) = snd (resolve m2 I).
Proof.
  intros Hs. destruct I; simpl; unfold same_parameters in *; simpl; intuition.
Qed.

(** C8: two calls of [run] on objects with the same ten configuration
    fields, with the same initial state and the same current, end with the
    same outcome and, when they return normally, with the same [x], [y]
    and [z]: nothing else (the trajectory of an earlier run, in
    particular) is read.  The solver is a function of its arguments. *)
Theorem C8_run_deterministic m1 m2 X0 I :
  same_parameters m1 m2 ->
  snd (run float_pow odeint m1 X0 I) = snd (run float_pow odeint m2 X0 I)
  /\ same_parameters (fst (run float_pow odeint m1 X0 I))
                     (fst (run float_pow odeint m2 X0 I))
  /\ (snd (run float_pow odeint m1 X0 I) = Ok tt ->
      self_x (fst (run float_pow odeint m1 X0 I))
      = self_x (fst (run float_pow odeint m2 X0 I))
      /\ self_y (fst (run float_pow odeint m1 X0 I))
         = self_y (fst (run float_pow odeint m2 X0 I))
      /\ self_z (fst (run float_pow odeint m1 X0 I))
         = self_z (fst (run float_pow odeint m2 X0 I))).
Proof.
  intros Hs. rewrite !run_unfold.
  destruct (resolve_same_parameters m1 m2 I Hs) as [Hs' HI].
  rewrite (integrate_same_parameters _ _ X0 (snd (resolve m1 I)) Hs'), HI.
  destruct (integrate float_pow odeint (fst (resolve m2 I)) X0 (snd (resolve m2 I)))
    as [[[xs ys] zs]|e]; simpl.
  - repeat split; apply Hs'.
  - split; [ reflexivity | ]. split; [ exact Hs' | discriminate ].
Qed.

(** C7: when [run] returns normally (it returns [None]) and the solver
    gives one row per grid point, [x], [y] and [z] are columns 0, 1 and 2
    of the solver's matrix for the grid [tvec], so each has the length of
    [tvec] and index [k] of each belongs to grid point [k]; what an earlier
    run stored is replaced: the result is the same from any stored
    trajectory. *)
Theorem C7_trajectory_alignment self X0 I self' :
  odeint_shape odeint ->
  run float_pow odeint self X0 I = (self', Ok tt) ->
  exists t X xs ys zs,
    tvec self' = Ok t
    /\ odeint (system_equations float_pow self') X0 t (self_I self') = Ok X
    /\ self_x self' = Some xs /\ self_y self' = Some ys /\ self_z self' = Some zs
    /\ length xs = length t /\ length ys = length t /\ length zs = length t
    /\ (forall k row, rows X !! k = Some row ->
          xs !! k = Some (nth 0 row zero)
          /\ ys !! k = Some (nth 1 row zero)
          /\ zs !! k = Some (nth 2 row zero))
    /\ (forall xs0 ys0 zs0,
          run float_pow odeint (set_xyz self xs0 ys0 zs0) X0 I = (self', Ok tt)).
Proof.
  intros Hshape Hrun.
  destruct (run_ok_inv _ _ _ _ Hrun) as (t & X & Ht & EX & Hc & ->).
  destruct (Hshape _ _ _ _ _ EX) as [Hrows _].
  exists t, X. do 3 eexists.
  split; [ rewrite <- Ht, <- (tvec_resolve self I); reflexivity | ].
  split; [ simpl; rewrite self_I_resolve; exact EX | ].
  do 3 (split; [ reflexivity | ]).
  rewrite !length_map.
  do 3 (split; [ exact Hrows | ]).
  split.
  - intros k row Hk. rewrite !list_lookup_fmap, Hk. auto.
  - intros xs0 ys0 zs0.
    assert (Ht' : tvec (set_xyz self xs0 ys0 zs0) = Ok t) by exact Ht.
    rewrite (run_with_grid _ _ _ _ Ht').
    assert (Hres : resolve (set_xyz self xs0 ys0 zs0) I
                   = (set_xyz (fst (resolve self I)) xs0 ys0 zs0, snd (resolve self I)))
      by (destruct I; reflexivity).
    rewrite Hres. simpl fst. simpl snd.
    change (system_equations float_pow (set_xyz (fst (resolve self I)) xs0 ys0 zs0))
      with (system_equations float_pow (fst (resolve self I))).
    rewrite EX. apply Nat.ltb_lt in Hc. rewrite Hc. reflexivity.
Qed.

End Run.

(** An explicit current 5 on the four-point grid. *)
Lemma C3_current_override_witness :
  self_I (fst (run pow_by_mul odeint_euler coarse X0_default (PyInt 5))) = PyInt 5
  /\ run pow_by_mul odeint_euler
         (fst (run pow_by_mul odeint_euler coarse X0_default (PyInt 5)))
         X0_default PyNone
     = run pow_by_mul odeint_euler coarse X0_default (PyInt 5).
Proof.
  destruct (C3_current_override pow_by_mul odeint_euler coarse X0_default (PyInt 5))
    as (HI & Hagain & _).
  - discriminate.
  - split; [ exact HI | exact Hagain ].
Defined.

(** A run on the four-point grid, with the stand-in solver. *)
Lemma C7_trajectory_alignment_witness :
  exists t xs ys zs,
    tvec (fst (run pow_by_mul odeint_euler coarse X0_default PyNone)) = Ok t
    /\ self_x (fst (run pow_by_mul odeint_euler coarse X0_default PyNone)) = Some xs
    /\ self_y (fst (run pow_by_mul odeint_euler coarse X0_default PyNone)) = Some ys
    /\ self_z (fst (run pow_by_mul odeint_euler coarse X0_default PyNone)) = Some zs
    /\ length xs = length t /\ length ys = length t /\ length zs = length t.
Proof.
  destruct (C7_trajectory_alignment pow_by_mul odeint_euler coarse X0_default PyNone
              (fst (run pow_by_mul odeint_euler coarse X0_default PyNone)))
    as (t & X & xs & ys & zs & Ht & _ & Hx & Hy & Hz & Hlx & Hly & Hlz & _).
  - exact odeint_euler_shape.
  - vm_compute. reflexivity.
  - exists t, xs, ys, zs. repeat split; assumption.
Defined.

(** The same object, fresh and with a trajectory already stored. *)
Lemma C8_run_deterministic_witness :
  snd (run pow_by_mul odeint_euler coarse X0_default (PyInt 2))
  = snd (run pow_by_mul odeint_euler
             (set_xyz coarse [1%float] [2%float] [3%float]) X0_default (PyInt 2)).
Proof.
  destruct (C8_run_deterministic pow_by_mul odeint_euler coarse
              (set_xyz coarse [1%float] [2%float] [3%float]) X0_default (PyInt 2))
    as (Hout & _).
  - repeat split.
  - exact Hout.
Defined.

(** ** The time grid *)



Lemma wrap64_in_range n : - 2 ^ 63 <= n < 2 ^ 63 -> wrap64 n = n.
Proof. intros Hn. unfold wrap64. rewrite Z.mod_small; lia. Qed.

Lemma fill_length first second count : forall from,
  length (fill first second from count) = count.
Proof. induction count as [|k IH]; simpl; intros from; [ | rewrite IH ]; reflexivity. Qed.

(** The fill loop in closed form. *)
Lemma fill_lookup first second count : forall from (k : nat),
  (k < count)%nat ->
  fill first second from count !! k = Some (fill_cell first second (from + Z.of_nat k)).
Proof.
  induction count as [|c IH]; intros from k Hk; [ lia | ].
  destruct k as [|k]; simpl.
  - do 2 f_equal. lia.
  - rewrite IH by lia. do 2 f_equal. lia.
Qed.

Lemma object_cells_length delta count : forall prev l,
  object_cells delta prev count = Ok l -> length l = count.
Proof.
  induction count as [|k IH]; simpl; intros prev l H.
  - inversion H. reflexivity.
  - unfold_result. destruct (py_add prev delta) as [cell|]; [ | discriminate ].
    destruct (object_cells delta cell k) as [rest|] eqn:E; [ | discriminate ].
    inversion H. simpl. f_equal. eapply IH. exact E.
Qed.

Lemma fill_from_2_ok dt first second count rest :
  fill_from_2 dt first second count = Ok rest ->
  length rest = count
  /\ (dt <> Object -> rest = fill first second 2 count).
Proof.
  destruct dt; simpl; intros H.
  - inversion H. rewrite fill_length. auto.
  - inversion H. rewrite fill_length. auto.
  - split; [ | congruence ].
    unfold object_fill in H. unfold_result.
    destruct (py_sub second first) as [delta|]; [ | discriminate ].
    destruct (py_add first delta) as [start|]; [ | discriminate ].
    eapply object_cells_length. exact H.
Qed.

(** [arange] when [stop] and [step] are given (neither is [None]). *)
Lemma np_arange_numeric start stop step :
  isinstance_int_float stop = true ->
  isinstance_int_float step = true ->
  np_arange start stop step =
  match calc_length start stop step with
  | Raise OverflowError => Raise ValueError
  | Raise e => Raise e
  | Ok (len, next) =>
      if len <=? 0 then Ok []
      else if ssize_max / 8 <? len then Raise ValueError
      else
        first ← cast (result_dtype start stop step) start;
        if len =? 1 then Ok [first]
        else
          second ← cast (result_dtype start stop step) next;
          if len =? 2 then Ok [first; second]
          else
            rest ← fill_from_2 (result_dtype start stop step) first second
                               (Z.to_nat (len - 2));
            Ok (first :: second :: rest)
  end.
Proof.
  intros Hstop Hstep.
  destruct stop; try discriminate; destruct step; try discriminate; reflexivity.
Qed.

(** [arange] on numbers, its branches spelled out. *)
Lemma np_arange_ok start stop step l :
  isinstance_int_float stop = true ->
  isinstance_int_float step = true ->
  np_arange start stop step = Ok l ->
  exists len next,
    calc_length start stop step = Ok (len, next)
    /\ len <= ssize_max / 8
    /\ ((len <= 0 /\ l = [])
        \/ (exists first,
              cast (result_dtype start stop step) start = Ok first
              /\ ((len = 1 /\ l = [first])
                  \/ (exists second rest,
                        1 < len
                        /\ cast (result_dtype start stop step) next = Ok second
                        /\ l = first :: second :: rest
                        /\ length rest = Z.to_nat (len - 2)
                        /\ (result_dtype start stop step <> Object ->
                            rest = fill first second 2 (Z.to_nat (len - 2))))))).
Proof.
  intros Hstop Hstep H.
  rewrite np_arange_numeric in H by assumption. unfold_result.
  destruct (calc_length start stop step) as [[len next]|e];
    [ | destruct e; discriminate ].
  exists len, next. split; [ reflexivity | ].
  destruct (len <=? 0) eqn:Hle.
  - apply Z.leb_le in Hle. inversion H.
    split; [ change (ssize_max / 8) with (2 ^ 60 - 1); lia | auto ].
  - apply Z.leb_gt in Hle.
    destruct (ssize_max / 8 <? len) eqn:Hbig; [ discriminate | ].
    apply Z.ltb_ge in Hbig. split; [ exact Hbig | right ].
    destruct (cast _ start) as [first|]; [ | discriminate ].
    exists first. split; [ reflexivity | ].
    destruct (len =? 1) eqn:H1.
    + left. apply Z.eqb_eq in H1. inversion H. auto.
    + right. apply Z.eqb_neq in H1.
      destruct (cast _ next) as [second|]; [ | discriminate ].
      destruct (len =? 2) eqn:H2.
      * apply Z.eqb_eq in H2. subst len. inversion H.
        exists second, []. repeat split; auto; lia.
      * destruct (fill_from_2 _ first second _) as [rest|] eqn:Hfill; [ | discriminate ].
        apply fill_from_2_ok in Hfill as [Hlen Hrest].
        inversion H. exists second, rest. repeat split; auto; lia.
Qed.

(** *** Doubles and their specification *)


(** Subtracting the integer 0 changes no double. *)
Lemma float_sub_0 f : (f - 0)%float = f.
Proof.
  transitivity (SF2Prim (Prim2SF (f - 0))); [ symmetry; apply SF2Prim_Prim2SF | ].
  transitivity (SF2Prim (Prim2SF f)); [ | apply SF2Prim_Prim2SF ].
  f_equal. rewrite sub_spec. change (Prim2SF 0) with (S754_zero false).
  destruct (Prim2SF f) as [[|]|[|]| |s m e]; reflexivity.
Qed.

Lemma py_sub_0 v :
  py_sub v (PyInt 0) =
  match as_num v with
  | Some (NInt n) => Ok (PyInt n)
  | Some (NFloat f) => Ok (PyFloat f)
  | None => Raise TypeError
  end.
Proof.
  destruct v as [| b | n | f | s | l]; try reflexivity.
  - destruct b; reflexivity.
  - unfold py_sub, arith. simpl. f_equal. f_equal. lia.
  - unfold py_sub, arith. simpl. rewrite float_sub_0. reflexivity.
Qed.

(** The length computation of [tvec]: the difference [time - 0] is [time]. *)
Lemma calc_length_tvec time dt :
  isinstance_int_float time = true ->
  calc_length (PyInt 0) time dt =
  (value ← py_truediv time dt;
   len ← arange_safe_ceil_to_intp value;
   if 0 <? (if is_zero value && is_nonzero time
            then (if get_sign value then 0 else 1)
            else len)
   then next ← py_add (PyInt 0) dt;
        Ok (if is_zero value && is_nonzero time
            then (if get_sign value then 0 else 1)
            else len, next)
   else Ok (if is_zero value && is_nonzero time
            then (if get_sign value then 0 else 1)
            else len, PyNone)).
Proof.
  intros Htime. unfold calc_length. rewrite py_sub_0.
  destruct time as [| b | n | f | s | l]; try discriminate; reflexivity.
Qed.






(** *** The sign of a rounded result *)
















(** *** The grid of a checked object *)

Lemma arange_safe_ceil_to_intp_ok q n :
  arange_safe_ceil_to_intp q = Ok n ->
  exists c, float_ceil q = Some c
            /\ n = (if c =? 2 ^ 63 then - 2 ^ 63 else c).
Proof.
  unfold arange_safe_ceil_to_intp.
  destruct (is_nan q); [ discriminate | ].
  destruct (float_ceil q) as [c|]; [ | discriminate ].
  destruct ((- 2 ^ 63 <=? c) && (c <=? 2 ^ 63)) eqn:Hr; [ | discriminate ].
  apply andb_prop in Hr as [Hlo Hhi]. apply Z.leb_le in Hlo, Hhi.
  intros H. inversion H. exists c. split; [ reflexivity | ].
  destruct (c =? 2 ^ 63) eqn:Hc.
  - apply Z.eqb_eq in Hc. subst c. reflexivity.
  - apply Z.eqb_neq in Hc. apply wrap64_in_range. lia.
Qed.

Lemma calc_length_tvec_ok time dt len next :
  isinstance_int_float time = true ->
  calc_length (PyInt 0) time dt = Ok (len, next) ->
  exists q c,
    py_truediv time dt = Ok q
    /\ float_ceil q = Some c
    /\ len = (if is_zero q && is_nonzero time
              then (if get_sign q then 0 else 1)
              else if c =? 2 ^ 63 then - 2 ^ 63 else c)
    /\ (0 < len -> py_add (PyInt 0) dt = Ok next).
Proof.
  intros Htime. rewrite calc_length_tvec by assumption. unfold_result.
  destruct (py_truediv time dt) as [q|]; [ | discriminate ].
  destruct (arange_safe_ceil_to_intp q) as [n|] eqn:Hn; [ | discriminate ].
  apply arange_safe_ceil_to_intp_ok in Hn as (c & Hc & ->).
  exists q, c. split; [ reflexivity | ]. split; [ exact Hc | ].
  match type of H with
  | (if 0 <? ?x then _ else _) = _ => destruct (0 <? x) eqn:Hpos
  end.
  - destruct (py_add (PyInt 0) dt) as [nx|]; [ | discriminate ].
    inversion H. auto.
  - apply Z.ltb_ge in Hpos. inversion H. split; [ reflexivity | lia ].
Qed.

Lemma int64_or_float_numeric v : int64_or_float v = true -> isinstance_int_float v = true.
Proof. destruct v; try discriminate; reflexivity. Qed.

(** The element type of the grid of [tvec]. *)
Lemma result_dtype_tvec time dt :
  int64_or_float time = true ->
  int64_or_float dt = true ->
  result_dtype (PyInt 0) time dt
  = if is_int time && is_int dt then Int64 else Float64.
Proof.
  unfold result_dtype. change (discover (PyInt 0)) with DInt64.
  destruct time as [| b | n | f | s | l]; try discriminate;
    destruct dt as [| b' | n' | f' | s' | l']; try discriminate;
    unfold int64_or_float, discover; cbn [as_num];
    intros H H'; rewrite ?H, ?H'; reflexivity.
Qed.


Lemma cast_Int64_inv v w :
  cast Int64 v = Ok w -> exists n, as_num v = Some (NInt n) /\ w = PyInt n
                                   /\ - 2 ^ 63 <= n < 2 ^ 63.
Proof.
  unfold cast. destruct (as_num v) as [[n|f]|]; try discriminate.
  destruct ((- 2 ^ 63 <=? n) && (n <? 2 ^ 63)) eqn:Hr; [ | discriminate ].
  intros Hw. inversion Hw. exists n. repeat split; lia.
Qed.




(** The grid of [tvec] for a [time] and a [dt] that are floats or 64-bit
    integers: its length and its cells. *)
Lemma tvec_ok self l :
  int64_or_float (self_time self) = true ->
  int64_or_float (self_dt self) = true ->
  tvec self = Ok l ->
  exists q c,
    py_truediv (self_time self) (self_dt self) = Ok q
    /\ float_ceil q = Some c
    /\ length l = Z.to_nat (if is_zero q && is_nonzero (self_time self)
                            then (if get_sign q then 0 else 1)
                            else if c =? 2 ^ 63 then 0 else c)
    /\ (l = []
        \/ exists first,
             cast (if is_int (self_time self) && is_int (self_dt self)
                   then Int64 else Float64) (PyInt 0) = Ok first
             /\ (l = [first]
                 \/ exists next second,
                      py_add (PyInt 0) (self_dt self) = Ok next
                      /\ cast (if is_int (self_time self) && is_int (self_dt self)
                               then Int64 else Float64) next = Ok second
                      /\ l = first :: second
                               :: fill first second 2 (length l - 2))).
Proof.
  intros Htime Hdt Ht. unfold tvec in Ht.
  pose proof (int64_or_float_numeric _ Htime) as Hnt.
  pose proof (int64_or_float_numeric _ Hdt) as Hnd.
  destruct (np_arange_ok _ _ _ _ Hnt Hnd Ht) as (len & next & Hlen & _ & Hl).
  rewrite (result_dtype_tvec _ _ Htime Hdt) in Hl.
  destruct (calc_length_tvec_ok _ _ _ _ Hnt Hlen) as (q & c & Hq & Hc & Hlen' & Hnext).
  exists q, c. do 2 (split; [ assumption | ]).
  assert (Hnat : Z.to_nat len
                 = Z.to_nat (if is_zero q && is_nonzero (self_time self)
                             then (if get_sign q then 0 else 1)
                             else if c =? 2 ^ 63 then 0 else c)).
  { rewrite Hlen'. destruct (is_zero q && is_nonzero (self_time self));
      [ reflexivity | destruct (c =? 2 ^ 63); reflexivity ]. }
  rewrite <- Hnat. clear Hnat Hlen'.
  destruct Hl as [[Hle ->] | (first & Hfirst & Hl)].
  - split; [ simpl; lia | auto ].
  - destruct Hl as [[-> ->] | (second & rest & Hgt & Hsecond & -> & Hrest & Hfill)].
    + split; [ reflexivity | ]. right. exists first. auto.
    + split; [ simpl; lia | ]. right. exists first. split; [ assumption | ]. right.
      exists next, second. split; [ apply Hnext; lia | ]. split; [ assumption | ].
      simpl length. rewrite Hfill by (destruct (_ && _); discriminate).
      rewrite fill_length. do 3 f_equal. lia.
Qed.




(** ** Degenerate grids and initial states: what [run] does not check *)











(** The right-hand side reads entries 0, 1 and 2 of the state and returns
    three derivatives: it raises on a shorter state, and ignores what
    follows entry 2. *)
Lemma system_equations_short float_pow self X t I :
  (length X < 3)%nat -> raises (system_equations float_pow self X t I).
Proof.
  intros Hlen. unfold system_equations, getitem.
  destruct X as [|x [|y [|z X]]]; simpl in Hlen; try lia;
    unfold_result; simpl; unfold raises; [ eauto | eauto | ].
  repeat match goal with
         | |- exists e, match ?r with Ok _ => _ | Raise _ => _ end = Raise e =>
             destruct r; [ | eauto ]
         end.
  eauto.
Qed.

Lemma system_equations_size float_pow self X t I out :
  system_equations float_pow self X t I = Ok out ->
  length out = 3%nat /\ (3 <= length X)%nat.
Proof.
  intros Hok.
  destruct (Nat.lt_ge_cases (length X) 3) as [Hlt | Hge].
  - destruct (system_equations_short float_pow self X t I Hlt) as [e He]. congruence.
  - split; [ | exact Hge ].
    unfold system_equations in Hok. unfold_result.
    repeat match type of Hok with
           | match ?r with Ok _ => _ | Raise _ => _ end = Ok _ =>
               destruct r; [ | discriminate ]
           end.
    inversion Hok. reflexivity.
Qed.





(** * Further properties of the class *)

(** ** The parameter check and the constructor *)

(** X1: [check_parameters] reports the first field, in the order [I], [a],
    [b], [c], [d], [r], [x1], [s], [dt], [time], that is not a number, with
    that field's message; it returns normally when there is none.  So a
    bad [x1] hides a bad [s], and no later field is looked at. *)
Theorem X1_check_parameters_first_failure self :
  check_parameters self =
  match find (fun p => negb (isinstance_int_float (fst p))) (checks self) with
  | Some p => Raise (AssertionError (snd p))
  | None => Ok tt
  end.
Proof.
  unfold check_parameters, checks, py_assert. unfold_result. cbn [find fst snd].
  repeat match goal with
         | |- context [negb (isinstance_int_float ?v)] =>
             destruct (isinstance_int_float v); cbn [negb]; [ | reflexivity ]
         end.
  reflexivity.
Qed.

(** X2: an object the constructor returns has ten numeric fields (those
    left at their defaults included), passes [check_parameters] again, and
    has no [x], [y], [z] yet. *)
Theorem X2_constructed_is_valid kwargs self :
  init kwargs = Ok self ->
  Forall (fun v => isinstance_int_float v = true)
    [self_I self; self_a self; self_b self; self_c self; self_d self;
     self_r self; self_s self; self_x1 self; self_dt self; self_time self]
  /\ check_parameters self = Ok tt
  /\ self_x self = None /\ self_y self = None /\ self_z self = None.
Proof.
  intros Hinit. pose proof (init_ok_fields _ _ Hinit) as ->.
  rewrite init_unfold in Hinit. unfold_result.
  destruct (check_parameters (init_fields kwargs)) as [[]|e] eqn:Hcheck;
    [ | discriminate ].
  split; [ | repeat split ].
  apply check_parameters_ok in Hcheck.
  repeat match goal with
         | H : Forall _ (_ :: _) |- _ => inversion H; subst; clear H
         end.
  repeat constructor; assumption.
Qed.

(** The constructor called with a step only. *)
Lemma X2_constructed_is_valid_witness :
  check_parameters (init_fields (<["dt" := PyInt 2]> ∅)) = Ok tt
  /\ self_x (init_fields (<["dt" := PyInt 2]> ∅)) = None.
Proof.
  destruct (X2_constructed_is_valid (<["dt" := PyInt 2]> ∅)
              (init_fields (<["dt" := PyInt 2]> ∅)))
    as (_ & Hcheck & Hx & _).
  - vm_compute. reflexivity.
  - split; assumption.
Defined.

(** ** [run] and the state of the object *)

Section RunState.

Variable float_pow : float -> Z -> result float.
Variable odeint : rhs -> pyval -> list pyval -> pyval -> result ndarray2.

Lemma run_same_coefficients self X0 I :
  same_coefficients (fst (run float_pow odeint self X0 I)) self.
Proof.
  rewrite run_unfold.
  destruct (integrate float_pow odeint _ X0 _) as [[[xs ys] zs]|e];
    destruct I; repeat split.
Qed.

Lemma check_parameters_run self X0 I :
  check_parameters (fst (run float_pow odeint self X0 I))
  = check_parameters (fst (resolve self I)).
Proof.
  rewrite run_unfold.
  destruct (integrate float_pow odeint _ X0 _) as [[[xs ys] zs]|e]; reflexivity.
Qed.

Lemma check_parameters_set_I self v :
  check_parameters self = Ok tt ->
  check_parameters (set_I self v)
  = py_assert (isinstance_int_float v) "The current (I) has to be a number.".
Proof.
  intros Hok. apply check_parameters_ok in Hok.
  repeat match goal with
         | H : Forall _ (_ :: _) |- _ => inversion H; subst; clear H
         end.
  unfold check_parameters, py_assert. unfold_result. simpl.
  destruct (isinstance_int_float v); [ | reflexivity ].
  repeat match goal with
         | H : isinstance_int_float _ = true |- _ => rewrite H; clear H
         end.
  reflexivity.
Qed.

(** X3: [run] stores an explicit current without checking it.  On an
    object that passes [check_parameters], the object after [run] passes
    it again exactly when the current was omitted or is a number; after an
    explicit current that is not a number the object fails the check on
    [I], whether or not [run] itself raised. *)
Theorem X3_run_stores_unchecked_current self X0 I :
  check_parameters self = Ok tt ->
  (check_parameters (fst (run float_pow odeint self X0 I)) = Ok tt
   <-> I = PyNone \/ isinstance_int_float I = true)
  /\ (I <> PyNone -> isinstance_int_float I = false ->
      check_parameters (fst (run float_pow odeint self X0 I))
      = Raise (AssertionError "The current (I) has to be a number.")).
Proof.
  intros Hok. rewrite check_parameters_run.
  assert (Hcases : I = PyNone \/ I <> PyNone)
    by (destruct I; auto; right; discriminate).
  destruct Hcases as [-> | Hexplicit].
  - simpl. split; [ split; auto | congruence ].
  - rewrite resolve_explicit by assumption. simpl.
    rewrite (check_parameters_set_I _ _ Hok). unfold py_assert.
    destruct (isinstance_int_float I) eqn:HI.
    + split; [ split; auto | discriminate ].
    + split; [ | reflexivity ].
      split; [ discriminate | intros [? | ?]; congruence ].
Qed.

Lemma integrate_same_coefficients m1 m2 X0 I :
  same_coefficients m1 m2 ->
  integrate float_pow odeint m1 X0 I = integrate float_pow odeint m2 X0 I.
Proof.
  destruct m1, m2. unfold same_coefficients. simpl.
  intros (-> & -> & -> & -> & -> & -> & -> & -> & ->). reflexivity.
Qed.

Lemma set_xyz_set_I_same_coefficients m1 m2 v xs ys zs :
  same_coefficients m1 m2 ->
  set_xyz (set_I m1 v) xs ys zs = set_xyz (set_I m2 v) xs ys zs.
Proof.
  destruct m1, m2. unfold same_coefficients. simpl.
  intros (-> & -> & -> & -> & -> & -> & -> & -> & ->). reflexivity.
Qed.

Lemma run_explicit_same_coefficients m1 m2 X0 v :
  same_coefficients m1 m2 -> v <> PyNone ->
  snd (run float_pow odeint m1 X0 v) = Ok tt ->
  run float_pow odeint m1 X0 v = run float_pow odeint m2 X0 v.
Proof.
  intros Hsame Hv. rewrite !run_unfold, !resolve_explicit by assumption.
  cbn [fst snd]. rewrite !integrate_set_I.
  rewrite (integrate_same_coefficients m1 m2 X0 v Hsame).
  destruct (integrate float_pow odeint m2 X0 v) as [[[xs ys] zs]|e];
    [ | discriminate ].
  intros _. f_equal. apply set_xyz_set_I_same_coefficients. exact Hsame.
Qed.

(** X4: a call of [run] with an explicit current that returns normally
    leaves no trace of what the object went through before: the object
    and the outcome are those of the same call on any object with the
    same [a], [b], [c], [d], [r], [s], [x1], [dt] and [time], whatever its
    stored [I] and trajectory; in particular those of the same call made
    before any earlier [run]. *)
Theorem X4_explicit_run_forgets_history X0 v :
  v <> PyNone ->
  (forall m1 m2,
      same_coefficients m1 m2 ->
      snd (run float_pow odeint m1 X0 v) = Ok tt ->
      run float_pow odeint m1 X0 v = run float_pow odeint m2 X0 v)
  /\ (forall self X0' I',
      snd (run float_pow odeint (fst (run float_pow odeint self X0' I')) X0 v) = Ok tt ->
      run float_pow odeint (fst (run float_pow odeint self X0' I')) X0 v
      = run float_pow odeint self X0 v).
Proof.
  intros Hv. split.
  - intros m1 m2 Hsame Hok. apply run_explicit_same_coefficients; assumption.
  - intros self X0' I' Hok. apply run_explicit_same_coefficients; try assumption.
    apply run_same_coefficients.
Qed.

End RunState.

(** A string passed as the current. *)
Lemma X3_run_stores_unchecked_current_witness :
  check_parameters (fst (run pow_by_mul odeint_euler coarse X0_default (PyStr "high")))
  = Raise (AssertionError "The current (I) has to be a number.").
Proof.
  apply (proj2 (X3_run_stores_unchecked_current pow_by_mul odeint_euler coarse
                  X0_default (PyStr "high") eq_refl)).
  - discriminate.
  - reflexivity.
Defined.

(** A run with current 3 after a run with current 7 from another state. *)
Lemma X4_explicit_run_forgets_history_witness :
  run pow_by_mul odeint_euler
      (fst (run pow_by_mul odeint_euler coarse
                (PyList [PyInt 1; PyInt 1; PyInt 1]) (PyInt 7)))
      X0_default (PyInt 3)
  = run pow_by_mul odeint_euler coarse X0_default (PyInt 3).
Proof.
  apply (proj2 (X4_explicit_run_forgets_history pow_by_mul odeint_euler
                  X0_default (PyInt 3) ltac:(discriminate))).
  vm_compute. reflexivity.
Defined.

(** ** The right-hand side: where the current enters *)

Ltac split_result H :=
  repeat match type of H with
         | context [match ?r with Ok _ => _ | Raise _ => _ end] =>
             lazymatch r with
             | Ok _ => fail
             | Raise _ => fail
             | match _ with Ok _ => _ | Raise _ => _ end => fail
             | _ => destruct r eqn:?; try discriminate H
             end
         end.

(** X5: the current enters the first derivative only, and as the last
    term added.  Two evaluations on the same state (the times may differ)
    that both return give the same second and third derivative, and their
    first derivatives are one and the same value plus the respective
    current. *)
Theorem X5_current_enters_first_equation
    (float_pow : float -> Z -> result float) self X t t' I I' out out' :
  system_equations float_pow self X t I = Ok out ->
  system_equations float_pow self X t' I' = Ok out' ->
  exists e dx dx' dy dz,
    out = [dx; dy; dz] /\ out' = [dx'; dy; dz]
    /\ py_add e I = Ok dx /\ py_add e I' = Ok dx'.
Proof.
  intros H H'.
  destruct (system_equations_size _ _ _ _ _ _ H) as [_ Hlen].
  destruct X as [|x [|y [|z rest]]]; simpl in Hlen; try lia.
  rewrite system_equations_formula in H, H'.
  unfold equations, lift2 in H, H'. unfold_result.
  split_result H. split_result H'.
  inversion H; inversion H'; subst. eauto 10.
Qed.

(** The default object at the state [1, 0, 0] with currents 0 and 5. *)
Lemma X5_current_enters_first_equation_witness :
  exists e dx dx' dy dz,
    [PyFloat 0; PyFloat 0; PyInt 2] = [dx; dy; dz]
    /\ [PyFloat 5; PyFloat 0; PyInt 2] = [dx'; dy; dz]
    /\ py_add e (PyInt 0) = Ok dx /\ py_add e (PyInt 5) = Ok dx'.
Proof.
  apply (X5_current_enters_first_equation pow_by_mul defaults
           [PyInt 1; PyInt 0; PyInt 0] (PyInt 0) (PyFloat 1) (PyInt 0) (PyInt 5));
    vm_compute; reflexivity.
Defined.

(** ** The grid of integers *)

(** X6: when [time] and [dt] are integers (booleans included) that fit
    a signed 64-bit integer, the grid holds integers, and point [i] is
    exactly [i * dt] as long as that product is a 64-bit integer: nothing
    is rounded. *)
Theorem X6_integer_grid self n d l :
  as_num (self_time self) = Some (NInt n) ->
  as_num (self_dt self) = Some (NInt d) ->
  - 2 ^ 63 <= n < 2 ^ 63 ->
  - 2 ^ 63 <= d < 2 ^ 63 ->
  tvec self = Ok l ->
  forall (i : nat) v,
    l !! i = Some v ->
    - 2 ^ 63 <= Z.of_nat i * d < 2 ^ 63 ->
    v = PyInt (Z.of_nat i * d).
Proof.
  intros Htime Hdt Hn Hd Ht i v Hv Hrange.
  assert (Hfit : forall u k, as_num u = Some (NInt k) -> - 2 ^ 63 <= k < 2 ^ 63 ->
                             int64_or_float u = true).
  { intros u k Hu Hk. unfold int64_or_float. rewrite Hu.
    apply andb_true_intro. split; [ apply Z.leb_le | apply Z.ltb_lt ]; lia. }
  destruct (tvec_ok self l (Hfit _ _ Htime Hn) (Hfit _ _ Hdt Hd) Ht)
    as (_ & _ & _ & _ & _ & [-> | (first & Hfirst & Hl)]); [ discriminate | ].
  unfold is_int in Hfirst, Hl. rewrite Htime, Hdt in Hfirst, Hl. simpl in Hfirst, Hl.
  inversion Hfirst; subst first. clear Hfirst.
  destruct Hl as [-> | (next & second & Hnext & Hsecond & Hl)].
  - destruct i as [|i]; [ | discriminate ].
    inversion Hv. f_equal; lia.
  - assert (Hnext' : next = PyInt (0 + d)).
    { destruct (self_dt self); try discriminate; simpl in Hdt, Hnext;
        inversion Hdt; inversion Hnext; subst; reflexivity. }
    subst next.
    apply cast_Int64_inv in Hsecond as (n1 & Hn1 & -> & _).
    simpl in Hn1. inversion Hn1; subst n1. clear Hn1.
    rewrite Hl in Hv.
    destruct i as [|[|i]].
    + inversion Hv. f_equal; lia.
    + inversion Hv. f_equal; lia.
    + simpl in Hv.
      assert (Hi : (i < length l - 2)%nat).
      { apply lookup_lt_Some in Hv. rewrite fill_length in Hv. exact Hv. }
      rewrite fill_lookup in Hv by exact Hi. inversion Hv. unfold fill_cell.
      replace (0 + d - 0) with d by lia.
      rewrite (wrap64_in_range d) by lia.
      replace (2 + Z.of_nat i) with (Z.of_nat (S (S i))) by lia.
      rewrite (wrap64_in_range (Z.of_nat (S (S i)) * d)) by lia.
      f_equal. apply wrap64_in_range. lia.
Qed.

(** [HindmarshRose(time=10, dt=3)]: the grid is [0, 3, 6, 9]. *)
Lemma X6_integer_grid_witness :
  PyInt 9 = PyInt (Z.of_nat 3 * 3).
Proof.
  apply (X6_integer_grid
           (init_fields (<["time" := PyInt 10]> (<["dt" := PyInt 3]> ∅)))
           10 3 [PyInt 0; PyInt 3; PyInt 6; PyInt 9]).
  - reflexivity.
  - reflexivity.
  - lia.
  - lia.
  - vm_compute. reflexivity.
  - reflexivity.
  - simpl. lia.
Defined.

(** ** Rebuilding an object, and its text *)

Lemma init_fields_as_kwargs m : init_fields (as_kwargs m) = fresh m.
Proof. destruct m. vm_compute. reflexivity. Qed.

(** X7: the constructor applied to the ten attributes of an object checks
    them and gives that object without its trajectory; applied to the
    attributes of an object it has returned, it returns the same object. *)
Theorem X7_rebuild_from_attributes :
  (forall m, init (as_kwargs m) = (_ ← check_parameters m; Ok (fresh m)))
  /\ (forall kwargs self, init kwargs = Ok self -> init (as_kwargs self) = Ok self).
Proof.
  assert (Hrebuild : forall m,
             init (as_kwargs m) = (_ ← check_parameters m; Ok (fresh m))).
  { intros m. rewrite init_unfold, init_fields_as_kwargs. reflexivity. }
  split; [ exact Hrebuild | ].
  intros kwargs self Hinit. rewrite Hrebuild.
  pose proof (init_ok_fields _ _ Hinit) as ->.
  rewrite init_unfold in Hinit. unfold_result.
  destruct (check_parameters (init_fields kwargs)) as [[]|e]; [ | discriminate ].
  reflexivity.
Qed.

(** The object built with [time=50], rebuilt from its attributes. *)
Lemma X7_rebuild_from_attributes_witness :
  init (as_kwargs (init_fields (<["time" := PyInt 50]> ∅)))
  = Ok (init_fields (<["time" := PyInt 50]> ∅)).
Proof.
  apply (proj2 X7_rebuild_from_attributes (<["time" := PyInt 50]> ∅)).
  vm_compute. reflexivity.
Defined.

(** X8: the text of an object, or the exception of formatting it, is the
    same before and after any call of [run], failed or not, even when the
    call has replaced the stored [I]: the text shows [a], [b], [c], [d],
    [dt] and [time] only. *)
Theorem X8_repr_unchanged_by_run
    (py_format : pyval -> result string)
    (float_pow : float -> Z -> result float)
    (odeint : rhs -> pyval -> list pyval -> pyval -> result ndarray2)
    self X0 I :
  repr py_format (fst (run float_pow odeint self X0 I)) = repr py_format self.
Proof.
  destruct (run_same_coefficients float_pow odeint self X0 I)
    as (Ha & Hb & Hc & Hd & _ & _ & _ & Hdt & Htime).
  unfold repr. rewrite Ha, Hb, Hc, Hd, Hdt, Htime. reflexivity.
Qed.

(** ** Plotting before and after a run *)

Section PlottingProperties.

Variable pyplot : list call -> call -> result unit.

Lemma emit_accepted log c :
  pyplot log c = Ok tt -> emit pyplot c log = (log ++ [c], Done tt).
Proof. intros H. unfold emit. rewrite H. reflexivity. Qed.

(** X9: on an object that has no [x] (one the constructor has just
    returned, or one whose every [run] has failed) [plot] and
    [phase_plane] fail and draw no curve, whatever matplotlib does; when
    matplotlib accepts the [subplots] call (and, for [plot], the grid can
    be built) the failure is the missing attribute [x], raised after that
    one call. *)
Theorem X9_plotting_needs_a_run self :
  self_x self = None ->
  ((exists e, snd (plot pyplot self []) = Failed e)
   /\ Forall (fun c => is_ax_plot c = false) (fst (plot pyplot self [])))
  /\ ((exists e, snd (phase_plane pyplot self []) = Failed e)
      /\ Forall (fun c => is_ax_plot c = false) (fst (phase_plane pyplot self [])))
  /\ (forall t,
        pyplot [] (subplots 1 3 (13, 3) true) = Ok tt ->
        tvec self = Ok t ->
        plot pyplot self []
        = ([subplots 1 3 (13, 3) true], Failed (AttributeError "x")))
  /\ (pyplot [] (subplots 1 2 (13, 3) true) = Ok tt ->
      phase_plane pyplot self []
      = ([subplots 1 2 (13, 3) true], Failed (AttributeError "x"))).
Proof.
  intros Hx.
  unfold plot, phase_plane, mbind, script_bind, emit, lift, getattr.
  rewrite Hx.
  destruct (pyplot [] (subplots 1 3 (13, 3) true)) as [[]|e3];
    destruct (pyplot [] (subplots 1 2 (13, 3) true)) as [[]|e2];
    destruct (tvec self) as [t|et]; simpl;
    repeat split; eauto; try discriminate;
    repeat constructor.
Qed.

Variable float_pow : float -> Z -> result float.
Variable odeint : rhs -> pyval -> list pyval -> pyval -> result ndarray2.

(** A matplotlib that objects to nothing but a curve whose two sequences
    differ in length. *)
Hypothesis pyplot_accepts_aligned :
  forall log c, aligned c = true -> pyplot log c = Ok tt.

(** X10: after a [run] that returned normally, with a solver that gives
    one row per grid point, [plot] runs to its end when matplotlib objects
    only to curves of unequal lengths: it draws [x], [y] and [z] of that
    run against the grid, each curve with as many samples as grid
    points. *)
Theorem X10_plot_after_run self X0 I self' :
  odeint_shape odeint ->
  run float_pow odeint self X0 I = (self', Ok tt) ->
  exists t xs ys zs,
    tvec self' = Ok t
    /\ self_x self' = Some xs /\ self_y self' = Some ys /\ self_z self' = Some zs
    /\ plot pyplot self' [] = (plot_calls t xs ys zs, Done tt)
    /\ Forall (fun c => aligned c = true) (plot_calls t xs ys zs).
Proof.
  intros Hshape Hrun.
  destruct (run_ok_inv _ _ _ _ _ _ Hrun) as (t & X & Ht & EX & _ & ->).
  destruct (Hshape _ _ _ _ _ EX) as [Hrows _].
  assert (Ht' : forall xs ys zs,
             tvec (set_xyz (fst (resolve self I)) xs ys zs) = Ok t).
  { intros. rewrite <- Ht, <- (tvec_resolve self I). reflexivity. }
  assert (Hal : forall k ax color,
             aligned (ax_plot ax t
                        (PyFloat <$> map (fun row => nth k row zero) (rows X)) color)
             = true).
  { intros. unfold aligned. rewrite length_fmap. rewrite List.length_map.
    rewrite Hrows. apply Nat.eqb_refl. }
  do 4 eexists.
  split; [ apply Ht' | ].
  do 3 (split; [ reflexivity | ]).
  split.
  - unfold plot, mbind, script_bind, lift, getattr.
    rewrite Ht'. cbn [self_x self_y self_z set_xyz].
    repeat (rewrite emit_accepted
              by (apply pyplot_accepts_aligned; first [ apply Hal | reflexivity ]);
            cbn beta iota).
    reflexivity.
  - unfold plot_calls.
    repeat match goal with |- Forall _ _ => constructor end;
      first [ apply Hal | reflexivity ].
Qed.

(** X11: after a [run] that returned normally, with any solver,
    [phase_plane] runs to its end when matplotlib objects only to curves
    of unequal lengths: it draws [y] against [x] and [z] against [x], and
    does not read the grid. *)
Theorem X11_phase_plane_after_run self X0 I self' :
  run float_pow odeint self X0 I = (self', Ok tt) ->
  exists xs ys zs,
    self_x self' = Some xs /\ self_y self' = Some ys /\ self_z self' = Some zs
    /\ length xs = length ys /\ length xs = length zs
    /\ phase_plane pyplot self' [] = (phase_plane_calls xs ys zs, Done tt).
Proof.
  intros Hrun.
  destruct (run_ok_inv _ _ _ _ _ _ Hrun) as (t & X & _ & _ & _ & ->).
  assert (Hal : forall j k ax color,
             aligned (ax_plot ax
                        (PyFloat <$> map (fun row => nth j row zero) (rows X))
                        (PyFloat <$> map (fun row => nth k row zero) (rows X)) color)
             = true).
  { intros. unfold aligned.
    repeat first [ rewrite length_fmap | rewrite List.length_map ].
    apply Nat.eqb_refl. }
  do 3 eexists.
  do 3 (split; [ reflexivity | ]).
  split; [ rewrite !length_map; reflexivity | ].
  split; [ rewrite !length_map; reflexivity | ].
  unfold phase_plane, mbind, script_bind, getattr.
  cbn [self_x self_y self_z set_xyz].
  repeat (rewrite emit_accepted
            by (apply pyplot_accepts_aligned; first [ apply Hal | reflexivity ]);
          cbn beta iota).
  reflexivity.
Qed.

End PlottingProperties.

Lemma pyplot_accepts_all log c : aligned c = true -> pyplot_accepts log c = Ok tt.
Proof. reflexivity. Qed.

(** The default object, fresh. *)
Lemma X9_plotting_needs_a_run_witness :
  phase_plane pyplot_accepts defaults []
  = ([subplots 1 2 (13, 3) true], Failed (AttributeError "x")).
Proof.
  apply (proj2 (proj2 (proj2 (X9_plotting_needs_a_run pyplot_accepts defaults eq_refl)))).
  reflexivity.
Defined.

(** The four-point grid after a run with the stand-in solver. *)
Lemma X10_plot_after_run_witness :
  exists t xs ys zs,
    plot pyplot_accepts (fst (run pow_by_mul odeint_euler coarse X0_default PyNone)) []
    = (plot_calls t xs ys zs, Done tt).
Proof.
  destruct (X10_plot_after_run pyplot_accepts pow_by_mul odeint_euler
              pyplot_accepts_all coarse X0_default PyNone
              (fst (run pow_by_mul odeint_euler coarse X0_default PyNone)))
    as (t & xs & ys & zs & _ & _ & _ & _ & Hplot & _).
  - exact odeint_euler_shape.
  - vm_compute. reflexivity.
  - exists t, xs, ys, zs. exact Hplot.
Defined.

(** The same run, then the phase plane. *)
Lemma X11_phase_plane_after_run_witness :
  exists xs ys zs,
    phase_plane pyplot_accepts
      (fst (run pow_by_mul odeint_euler coarse X0_default PyNone)) []
    = (phase_plane_calls xs ys zs, Done tt).
Proof.
  destruct (X11_phase_plane_after_run pyplot_accepts pow_by_mul odeint_euler
              pyplot_accepts_all coarse X0_default PyNone
              (fst (run pow_by_mul odeint_euler coarse X0_default PyNone)))
    as (xs & ys & zs & _ & _ & _ & _ & _ & Hplot).
  - vm_compute. reflexivity.
  - exists xs, ys, zs. exact Hplot.
Defined.

(** ** The right-hand side: what a normal return tells *)

Lemma arith_ok_inv iop fop u v w :
  arith iop fop u v = Ok w ->
  isinstance_int_float u = true /\ isinstance_int_float v = true
  /\ isinstance_int_float w = true.
Proof.
  unfold arith. unfold_result.
  destruct u; try discriminate; destruct v; try discriminate; simpl;
    repeat match goal with
           | |- context [to_double ?n] => destruct (to_double n); try discriminate
           end;
    intros Hw; inversion Hw; repeat split.
Qed.

(** A sum whose left operand is a number is a sum of numbers. *)
Lemma py_add_ok_inv u v w :
  py_add u v = Ok w ->
  isinstance_int_float u = true ->
  isinstance_int_float v = true /\ isinstance_int_float w = true.
Proof.
  intros H Hu. destruct u; try discriminate;
    destruct v; try discriminate H;
    apply arith_ok_inv in H as (_ & ? & ?); auto.
Qed.

(** A repeated sequence is a sequence. *)
Lemma sequence_repeat_ok_inv seq n w :
  sequence_repeat seq n = Ok w -> isinstance_int_float w = false.
Proof.
  unfold sequence_repeat.
  destruct (as_index n) as [count|]; [ | discriminate ].
  destruct ((- 2 ^ 63 <=? count) && (count <=? ssize_max)); [ | discriminate ].
  destruct seq; try discriminate.
  - destruct (count <? 1); [ intros H; inversion H; reflexivity | ].
    destruct (ssize_max / count <? _); [ discriminate | ].
    intros H; inversion H; reflexivity.
  - destruct ((Z.of_nat (length l) =? 0) || (count <=? 0));
      [ intros H; inversion H; reflexivity | ].
    destruct (ssize_max / count <? _); [ discriminate | ].
    intros H; inversion H; reflexivity.
Qed.

(** A product that is a number is a product of numbers. *)
Lemma py_mul_ok_inv u v w :
  py_mul u v = Ok w ->
  isinstance_int_float w = true ->
  isinstance_int_float u = true /\ isinstance_int_float v = true.
Proof.
  intros H Hw.
  destruct u; destruct v; simpl in H; try discriminate H;
    try (apply sequence_repeat_ok_inv in H; congruence);
    apply arith_ok_inv in H as (? & ? & _); auto.
Qed.

Lemma py_pow_ok_inv float_pow v n w :
  py_pow float_pow v n = Ok w ->
  isinstance_int_float v = true /\ isinstance_int_float w = true.
Proof.
  unfold py_pow. unfold_result.
  destruct v; try discriminate; simpl;
    try (destruct (float_pow f n); try discriminate);
    intros Hw; inversion Hw; repeat split.
Qed.

(** X12: among the values of the model ([None], booleans, integers,
    floats, strings and lists), [system_equations] returns only when the
    operands of its subtractions and additions are numbers.  When it
    returns, the state has at least three entries; the first three of
    them, the current and the coefficients [a], [b], [c], [d], [s] and
    [x1] are numbers ([int], [bool] or [float]); and the result has three
    entries, the first two of them numbers.  So a string, a list or
    [None] for the current, a state entry or one of these coefficients
    always makes it raise.  [r] is only multiplied, and Python repeats a
    string or a list multiplied by an integer: nothing is stated about
    [r] and the third derivative. *)
Theorem X12_system_equations_needs_numbers
    (float_pow : float -> Z -> result float) self X t I out :
  system_equations float_pow self X t I = Ok out ->
  exists x y z rest dx dy dz,
    X = x :: y :: z :: rest
    /\ out = [dx; dy; dz]
    /\ Forall (fun v => isinstance_int_float v = true)
         [x; y; z; I; self_a self; self_b self; self_c self; self_d self;
          self_s self; self_x1 self]
    /\ isinstance_int_float dx = true
    /\ isinstance_int_float dy = true.
Proof.
  intros H.
  destruct (system_equations_size _ _ _ _ _ _ H) as [_ Hlen].
  destruct X as [|x [|y [|z rest]]]; simpl in Hlen; try lia.
  rewrite system_equations_formula in H.
  unfold equations, lift2 in H. unfold_result.
  split_result H. inversion H; subst out. clear H.
  repeat match goal with
         | H : py_pow _ _ _ = Ok _ |- _ =>
             apply py_pow_ok_inv in H as (? & ?)
         | H : py_sub _ _ = Ok _ |- _ =>
             apply arith_ok_inv in H as (? & ? & ?)
         | H : py_add ?u _ = Ok _, Hu : isinstance_int_float ?u = true |- _ =>
             pose proof (py_add_ok_inv _ _ _ H Hu) as (? & ?); clear H
         | H : py_mul _ _ = Ok ?w, Hw : isinstance_int_float ?w = true |- _ =>
             pose proof (py_mul_ok_inv _ _ _ H Hw) as (? & ?); clear H
         end.
  exists x, y, z, rest. do 3 eexists.
  do 2 (split; [ reflexivity | ]).
  split; [ | split; assumption ].
  repeat match goal with |- Forall _ _ => constructor end; assumption.
Qed.

(** The default object at the state [1, 0, 0]. *)
Lemma X12_system_equations_needs_numbers_witness :
  exists x y z rest dx dy dz,
    [PyInt 1; PyInt 0; PyInt 0] = x :: y :: z :: rest
    /\ [PyFloat 0; PyFloat 0; PyInt 2] = [dx; dy; dz]
    /\ isinstance_int_float dx = true.
Proof.
  destruct (X12_system_equations_needs_numbers pow_by_mul defaults
              [PyInt 1; PyInt 0; PyInt 0] (PyInt 0) (PyInt 0)
              [PyFloat 0; PyFloat 0; PyInt 2])
    as (x & y & z & rest & dx & dy & dz & HX & Hout & _ & Hdx & _).
  - vm_compute. reflexivity.
  - exists x, y, z, rest, dx, dy, dz. repeat split; assumption.
Defined.
